(** * WisperFlow: the faster-whisper command server

    A shallow embedding of [WisperFlow/Scripts/faster_whisper_server.py]
    and the properties its design description states about it.

    The server is a single-threaded Python process: it reads one JSON
    request per line from standard input, dispatches on the [command]
    field, and prints one JSON object per request.  The embedding keeps
    the shape of the Python code:

    - Python values that travel through JSON are the inductive [pyval];
    - the collaborators the script calls but does not define ([json.loads],
      [os.path.exists], [wave.open], [torch.cuda.is_available], the
      [WhisperModel] constructor and its [transcribe] method, the wall
      clock) are the fields of a record [World];
    - methods of [FasterWhisperServer] are computations in a small monad
      that threads the object's two attributes and a chronological trace
      of every external interaction, and in which Python exceptions are
      explicit results;
    - NumPy sample values are the rationals they denote ([Q]); the one
      place where rounding decides a discrete result, the length
      [int(len(audio) * ratio)], is evaluated with the IEEE 754 binary64
      operations of the Standard Library's [SpecFloat]. *)

From Stdlib Require Import ZArith List String Ascii Bool Lia QArith Qround Lqa.
From Stdlib Require Import Strings.Byte DecimalString.
From Stdlib Require Import Floats.SpecFloat Floats.PrimFloat Floats.FloatOps.
From Stdlib Require Import Numbers.Cyclic.Int63.Uint63.
Import ListNotations.

Local Open Scope string_scope.
Local Open Scope Z_scope.

#[local] Set Warnings "-register-all".

(** ** Python values and exceptions *)

(** What [json.loads] can return and [json.dumps] can print. A [dict] keeps
    its items in insertion order; its keys are pairwise distinct. *)
Inductive pyval : Type :=
| PNone
| PBool (b : bool)
| PInt (z : Z)
| PFloat (q : Q)
| PStr (s : string)
| PList (items : list pyval)
| PDict (items : list (string * pyval)).

(** The exception classes the script can meet. All of them derive from
    [Exception]; [KeyboardInterrupt] and [SystemExit], which no handler of
    the script catches, are outside the model. *)
Inductive exn_class : Type :=
| ImportError
| JSONDecodeError
| ValueError
| TypeError
| AttributeError
| ZeroDivisionError
| OverflowError
| OtherError (name : string).

Record exn : Type := Exn { exn_kind : exn_class; exn_str : string }.

Inductive result (A : Type) : Type :=
| Ok (a : A)
| Raise (e : exn).
Arguments Ok {A} a.
Arguments Raise {A} e.

Definition is_ImportError (e : exn) : bool :=
  match exn_kind e with ImportError => true | _ => false end.

Definition is_JSONDecodeError (e : exn) : bool :=
  match exn_kind e with JSONDecodeError => true | _ => false end.

(** [v == "literal"] for a value [v] that came out of a request. *)
Definition py_eq_str (v : pyval) (s : string) : bool :=
  match v with
  | PStr s' => String.eqb s' s
  | _ => false
  end.

Definition py_type_name (v : pyval) : string :=
  match v with
  | PNone => "NoneType"
  | PBool _ => "bool"
  | PInt _ => "int"
  | PFloat _ => "float"
  | PStr _ => "str"
  | PList _ => "list"
  | PDict _ => "dict"
  end.

Fixpoint assoc_get (k : string) (items : list (string * pyval)) : option pyval :=
  match items with
  | [] => None
  | (k', v) :: rest => if String.eqb k' k then Some v else assoc_get k rest
  end.

Definition dict_get (items : list (string * pyval)) (key : string) (default : pyval) : pyval :=
  match assoc_get key items with Some v => v | None => default end.

(** [request.get(key, default)]. Only a [dict] has the method. *)
Definition py_get (request : pyval) (key : string) (default : pyval) : result pyval :=
  match request with
  | PDict items =>
      Ok (dict_get items key default)
  | other =>
      Raise (Exn AttributeError
               ("'" ++ py_type_name other ++ "' object has no attribute 'get'"))
  end.

Definition string_of_Z (z : Z) : string :=
  NilZero.string_of_int (Z.to_int z).

(** ** Audio containers and buffers *)

(** What [wave.open(path, 'rb')] and the four getters and [readframes]
    deliver for a container that parses. *)
Record wave_file : Type := WaveFile {
  getframerate : Z;
  getnchannels : Z;
  getsampwidth : Z;
  getnframes : Z;
  readframes : list byte
}.

(** What [_load_audio] hands to the engine: a mono sample array, or the
    path it was given. *)
Inductive audio_input : Type :=
| AudioArray (samples : list Q)
| AudioPath (path : pyval).

(** ** The engine and the rest of the world *)

(** A model handle is the record of what it was constructed from. *)
Record WhisperModel : Type := MkWhisperModel {
  wm_model_size : pyval;
  wm_device : pyval;
  wm_compute_type : pyval;
  wm_download_root : string
}.

(** [info] and the fully iterated [segments] of [model.transcribe]. *)
Record transcription : Type := Transcription {
  segment_texts : list string;
  info_language : string;
  info_language_probability : Q
}.

Record World : Type := MkWorld {
  (** [json.loads(line)] *)
  json_loads : string -> result pyval;
  (** [str(v)] for values whose text is not fixed below *)
  py_repr : pyval -> string;
  (** [import torch; torch.cuda.is_available()] *)
  torch_cuda_is_available : result bool;
  (** [os.environ.get(name)] *)
  os_environ_get : string -> option string;
  (** [os.path.join] of the listed parts *)
  os_path_join : list string -> string;
  (** [WhisperModel(size, device=, compute_type=, download_root=)]:
      [Some e] when construction raises [e] *)
  WhisperModel_raises : WhisperModel -> option exn;
  (** [os.path.exists(path)] *)
  os_path_exists : pyval -> result bool;
  (** [wave.open(path, 'rb')] with the header getters and [readframes] *)
  wave_open : pyval -> result wave_file;
  (** [model.transcribe(audio, language=..., ...)] with the segments iterated *)
  model_transcribe : WhisperModel -> audio_input -> pyval -> result transcription;
  (** [time.time()], by the number of interactions that came before *)
  time_time : nat -> Q
}.

(** ** Server state, trace and the method monad *)

Record FasterWhisperServer : Type := MkServer {
  model : option WhisperModel;
  model_size : pyval
}.

(** [FasterWhisperServer.__init__] *)
Definition __init__ : FasterWhisperServer :=
  {| model := None; model_size := PNone |}.

(** Everything the process does to or asks of its surroundings, in the
    order it happens. *)
Inductive event : Type :=
| Stdin (line : string)
| Stdout (payload : pyval)
| TorchProbe
| ModelInit (m : WhisperModel)
| PathExists (path : pyval)
| WaveOpen (path : pyval)
| Inference (m : WhisperModel) (audio : audio_input) (language : pyval)
| Clock.

Record proc : Type := MkProc {
  self : FasterWhisperServer;
  trace : list event
}.

Definition M (A : Type) : Type := proc -> result A * proc.

Definition ret {A} (a : A) : M A := fun p => (Ok a, p).

Definition bind {A B} (m : M A) (k : A -> M B) : M B :=
  fun p =>
    match m p with
    | (Ok a, p') => k a p'
    | (Raise e, p') => (Raise e, p')
    end.

Definition raise {A} (e : exn) : M A := fun p => (Raise e, p).

Definition lift {A} (r : result A) : M A := fun p => (r, p).

(** [try: body / except <classes> as e: handler e]. Assignments made by
    [body] before it raised stay made. *)
Definition try_except {A} (catches : exn -> bool) (body : M A) (handler : exn -> M A) : M A :=
  fun p =>
    match body p with
    | (Ok a, p') => (Ok a, p')
    | (Raise e, p') => if catches e then handler e p' else (Raise e, p')
    end.

(** [except Exception] *)
Definition Exception (e : exn) : bool := true.

Definition get_self : M FasterWhisperServer := fun p => (Ok (self p), p).

Definition set_model (m : option WhisperModel) : M unit :=
  fun p => (Ok tt, {| self := {| model := m; model_size := model_size (self p) |};
                      trace := trace p |}).

Definition set_model_size (v : pyval) : M unit :=
  fun p => (Ok tt, {| self := {| model := model (self p); model_size := v |};
                      trace := trace p |}).

Definition log (ev : event) : M unit :=
  fun p => (Ok tt, {| self := self p; trace := trace p ++ [ev] |}).

Declare Scope py_scope.
Delimit Scope py_scope with py.
Notation "x <- m ;; k" := (bind m (fun x => k))
  (at level 61, m at next level, right associativity) : py_scope.
Notation "m ;; k" := (bind m (fun _ => k))
  (at level 61, right associativity) : py_scope.
Local Open Scope py_scope.

(** Response payloads. *)
Definition failure (msg : string) : pyval :=
  PDict [("success", PBool false); ("error", PStr msg)].

(** [print(json.dumps(payload), flush=True)]: one line on standard output. *)
Definition print (payload : pyval) : M unit := log (Stdout payload).

(** ** Text helpers *)

(** [str.isspace] on the ASCII range; request lines are ASCII text. *)
Definition is_space (c : ascii) : bool :=
  let n := N_of_ascii c in
  ((9 <=? n) && (n <=? 13) || (28 <=? n) && (n <=? 32))%N.

Fixpoint lstrip (s : string) : string :=
  match s with
  | String c rest => if is_space c then lstrip rest else s
  | EmptyString => EmptyString
  end.

Fixpoint rstrip (s : string) : string :=
  match s with
  | String c rest =>
      match rstrip rest with
      | EmptyString => if is_space c then EmptyString else String c EmptyString
      | rest' => String c rest'
      end
  | EmptyString => EmptyString
  end.

(** [s.strip()] *)
Definition strip (s : string) : string := rstrip (lstrip s).

Definition is_empty (s : string) : bool :=
  match s with EmptyString => true | _ => false end.

(** [round(x, 3)] on the rational a float denotes, ties to even. *)
Definition round_half_even (q : Q) : Z :=
  let f := Qfloor q in
  match Qcompare (q - inject_Z f) (1 # 2) with
  | Lt => f
  | Gt => f + 1
  | Eq => if Z.even f then f else f + 1
  end.

Definition py_round3 (q : Q) : Q :=
  Qred (inject_Z (round_half_even (q * inject_Z 1000)) / inject_Z 1000).

(** ** The NumPy operations [_load_audio] uses *)

Definition Z_of_byte (b : byte) : Z := Z.of_N (Byte.to_N b).

(** Two's-complement reading of an unsigned [bits]-bit pattern. *)
Definition to_signed (bits : Z) (u : Z) : Z :=
  if u <? 2 ^ (bits - 1) then u else u - 2 ^ bits.

Definition int16_le (b0 b1 : byte) : Z :=
  to_signed 16 (Z.lor (Z_of_byte b0) (Z.shiftl (Z_of_byte b1) 8)).

Definition int32_le (b0 b1 b2 b3 : byte) : Z :=
  to_signed 32
    (Z.lor (Z.lor (Z_of_byte b0) (Z.shiftl (Z_of_byte b1) 8))
           (Z.lor (Z.shiftl (Z_of_byte b2) 16) (Z.shiftl (Z_of_byte b3) 24))).

Definition buffer_size_error : exn :=
  Exn ValueError "buffer size must be a multiple of element size".

(** [np.frombuffer(raw_data, dtype=np.int16)], little-endian as on the
    machines the application runs on. *)
Fixpoint np_frombuffer_int16 (raw_data : list byte) : result (list Z) :=
  match raw_data with
  | [] => Ok []
  | b0 :: b1 :: rest =>
      match np_frombuffer_int16 rest with
      | Ok samples => Ok (int16_le b0 b1 :: samples)
      | Raise e => Raise e
      end
  | _ => Raise buffer_size_error
  end.

(** [np.frombuffer(raw_data, dtype=np.int32)] *)
Fixpoint np_frombuffer_int32 (raw_data : list byte) : result (list Z) :=
  match raw_data with
  | [] => Ok []
  | b0 :: b1 :: b2 :: b3 :: rest =>
      match np_frombuffer_int32 rest with
      | Ok samples => Ok (int32_le b0 b1 b2 b3 :: samples)
      | Raise e => Raise e
      end
  | _ => Raise buffer_size_error
  end.

(** [a.astype(np.float32) / d] *)
Definition normalize (d : Z) (samples : list Z) : list Q :=
  map (fun s => inject_Z s / inject_Z d)%Q samples.

(** The rows of [audio.reshape(-1, n_channels)]. *)
Fixpoint rows (n_channels : nat) (audio : list Q) (fuel : nat) : list (list Q) :=
  match fuel with
  | O => []
  | S fuel' =>
      match audio with
      | [] => []
      | _ => firstn n_channels audio :: rows n_channels (skipn n_channels audio) fuel'
      end
  end.

Definition Qsum (l : list Q) : Q := fold_right Qplus 0%Q l.

(** [row.mean()] *)
Definition mean (row : list Q) : Q :=
  (Qsum row / inject_Z (Z.of_nat (List.length row)))%Q.

(** [audio.reshape(-1, n_channels).mean(axis=1)] for [n_channels > 1] *)
Definition reshape_mean (audio : list Q) (n_channels : Z) : result (list Q) :=
  if Z.of_nat (List.length audio) mod n_channels =? 0 then
    Ok (map mean (rows (Z.to_nat n_channels) audio (List.length audio)))
  else
    Raise (Exn ValueError
             ("cannot reshape array of size " ++ string_of_Z (Z.of_nat (List.length audio))
              ++ " into shape (" ++ string_of_Z n_channels ++ ")")).

(** *** binary64 *)

Definition b64_div : spec_float -> spec_float -> spec_float := SFdiv 53 1024.
Definition b64_mul : spec_float -> spec_float -> spec_float := SFmul 53 1024.

(** [float(z)] *)
Definition py_float (z : Z) : result spec_float :=
  match binary_normalize 53 1024 z 0 false with
  | S754_infinity _ => Raise (Exn OverflowError "int too large to convert to float")
  | f => Ok f
  end.

(** [a / b] on two [int]s *)
Definition py_truediv (a b : Z) : result spec_float :=
  if b =? 0 then Raise (Exn ZeroDivisionError "division by zero")
  else
    match py_float a, py_float b with
    | Ok x, Ok y => Ok (b64_div x y)
    | Raise e, _ => Raise e
    | _, Raise e => Raise e
    end.

(** [n * x] for an [int] n and a [float] x *)
Definition py_int_mul_float (n : Z) (x : spec_float) : result spec_float :=
  match py_float n with
  | Ok y => Ok (b64_mul y x)
  | Raise e => Raise e
  end.

(** [int(x)]: truncation toward zero *)
Definition py_int (x : spec_float) : result Z :=
  match x with
  | S754_zero _ => Ok 0
  | S754_finite s m e =>
      let magnitude := if 0 <=? e then Z.shiftl (Zpos m) e else Z.shiftr (Zpos m) (- e) in
      Ok (if s then - magnitude else magnitude)
  | S754_infinity _ => Raise (Exn OverflowError "cannot convert float infinity to integer")
  | S754_nan => Raise (Exn ValueError "cannot convert float NaN to integer")
  end.

(** [int(len(audio) * (16000 / sample_rate))] *)
Definition new_length (len sample_rate : Z) : result Z :=
  match py_truediv 16000 sample_rate with
  | Ok ratio =>
      match py_int_mul_float len ratio with
      | Ok x => py_int x
      | Raise e => Raise e
      end
  | Raise e => Raise e
  end.

(** [len * (16000 / sample_rate)] on the machine's own doubles, read back
    as a [spec_float]; the kernel evaluates these with the processor's
    arithmetic. *)
Definition hardware_product (len sample_rate : Z) : spec_float :=
  Prim2SF (PrimFloat.mul (PrimFloat.of_uint63 (Uint63.of_Z len))
             (PrimFloat.div (PrimFloat.of_uint63 (Uint63.of_Z 16000))
                            (PrimFloat.of_uint63 (Uint63.of_Z sample_rate)))).

(** *** Interpolation *)

Definition set_last (y : list Q) (v : Q) : list Q := removelast y ++ [v].

(** [np.linspace(start, stop, num)] *)
Definition np_linspace (start stop : Q) (num : Z) : result (list Q) :=
  if num <? 0 then
    Raise (Exn ValueError
             ("Number of samples, " ++ string_of_Z num ++ ", must be non-negative."))
  else
    let div := num - 1 in
    let delta := (stop - start)%Q in
    let step := if 0 <? div then (delta / inject_Z div)%Q else delta in
    let y := map (fun i => inject_Z (Z.of_nat i) * step + start)%Q
                 (seq 0 (Z.to_nat num)) in
    Ok (if 1 <? num then set_last y stop else y).

(** [np.arange(n)] *)
Definition np_arange (n : nat) : list Q :=
  map (fun i => inject_Z (Z.of_nat i)) (seq 0 n).

(** One point of [np.interp], for [x] not left of the first sample point:
    the segment that holds [x] is found, a sample point hit exactly gives
    its value, the last sample point and everything right of it give the
    last value. *)
Fixpoint interp_from (x : Q) (xp fp : list Q) : Q :=
  match xp, fp with
  | x0 :: xp', f0 :: fp' =>
      match xp', fp' with
      | x1 :: _, f1 :: _ =>
          if Qle_bool x1 x then interp_from x xp' fp'
          else if Qeq_bool x0 x then f0
          else ((f1 - f0) / (x1 - x0) * (x - x0) + f0)%Q
      | _, _ => f0
      end
  | _, _ => 0%Q
  end.

Definition interp1 (xp fp : list Q) (x : Q) : Q :=
  match xp, fp with
  | x0 :: _, f0 :: _ => if Qle_bool x0 x then interp_from x xp fp else f0
  | _, _ => 0%Q
  end.

(** [np.interp(x, xp, fp)] *)
Definition np_interp (x xp fp : list Q) : result (list Q) :=
  match xp with
  | [] => Raise (Exn ValueError "array of sample points is empty")
  | _ =>
      if Nat.eqb (List.length xp) (List.length fp) then Ok (map (interp1 xp fp) x)
      else Raise (Exn ValueError "fp and xp are not of the same length.")
  end.

(** Lines 146-149: the resampling to 16 kHz. *)
Definition resample (audio : list Q) (sample_rate : Z) : result (list Q) :=
  let len := Z.of_nat (List.length audio) in
  match new_length len sample_rate with
  | Raise e => Raise e
  | Ok n =>
      match np_linspace 0 (inject_Z (len - 1)) n with
      | Raise e => Raise e
      | Ok indices => np_interp indices (np_arange (List.length audio)) audio
      end
  end.

(** Lines 132-141: the samples as floats, one value per frame. *)
Definition read_mono (wf : wave_file) : result (list Q) :=
  let n_channels := getnchannels wf in
  let sample_width := getsampwidth wf in
  let raw_data := readframes wf in
  match
    (if sample_width =? 2 then
       match np_frombuffer_int16 raw_data with
       | Ok samples => Ok (normalize 32768 samples)
       | Raise e => Raise e
       end
     else if sample_width =? 4 then
       match np_frombuffer_int32 raw_data with
       | Ok samples => Ok (normalize 2147483648 samples)
       | Raise e => Raise e
       end
     else
       Raise (Exn ValueError ("Unsupported sample width: " ++ string_of_Z sample_width)))
  with
  | Raise e => Raise e
  | Ok audio => if 1 <? n_channels then reshape_mean audio n_channels else Ok audio
  end.

(** Lines 123-151: what happens to a container that was opened and read. *)
Definition decode_wave (wf : wave_file) : result (list Q) :=
  let sample_rate := getframerate wf in
  match read_mono wf with
  | Raise e => Raise e
  | Ok audio =>
      if negb (sample_rate =? 16000) then resample audio sample_rate
      else Ok audio
  end.

(** Lines 102-111: the answer of [transcribe] once the engine has run. *)
Definition transcribed_payload (t : transcription) (duration : Q) : pyval :=
  let full_text := strip (String.concat "" (segment_texts t)) in
  PDict [("success", PBool true);
         ("text", PStr full_text);
         ("duration", PFloat (py_round3 duration));
         ("language", PStr (info_language t));
         ("language_probability", PFloat (py_round3 (info_language_probability t)))].

Definition goodbye : pyval := PDict [("success", PBool true); ("goodbye", PBool true)].

Section Server.

Variable w : World.

(** [str(v)] as an f-string field prints it. *)
Definition py_str (v : pyval) : string :=
  match v with
  | PNone => "None"
  | PBool true => "True"
  | PBool false => "False"
  | PInt z => string_of_Z z
  | PStr s => s
  | other => py_repr w other
  end.

Definition probe_cuda : M bool :=
  log TorchProbe ;; lift (torch_cuda_is_available w).

Definition download_root : string :=
  os_path_join w
    [match os_environ_get w "LOCALAPPDATA" with Some d => d | None => "." end;
     "WisperFlow"; "models"; "faster-whisper"].

Definition new_WhisperModel (size device compute_type : pyval) : M WhisperModel :=
  let m := MkWhisperModel size device compute_type download_root in
  log (ModelInit m) ;;
  match WhisperModel_raises w m with
  | Some e => raise e
  | None => ret m
  end.

(** Lines 43-47: the compute type, chosen from [device] as the request
    gave it. *)
Definition resolve_compute_type (device compute_type : pyval) : pyval :=
  if py_eq_str compute_type "auto" then
    if py_eq_str device "cuda" then PStr "float16" else PStr "int8"
  else compute_type.

(** Lines 49-55: the device, probed when the request left it open. *)
Definition resolve_device (device : pyval) : M pyval :=
  if py_eq_str device "auto" then
    try_except is_ImportError
      (available <- probe_cuda ;;
       ret (if available : bool then PStr "cuda" else PStr "cpu"))
      (fun _ => ret (PStr "cpu"))
  else ret device.

Definition loaded_payload (model_size device compute_type : pyval) : pyval :=
  PDict [("success", PBool true); ("model", model_size);
         ("device", device); ("compute_type", compute_type)].

(** [FasterWhisperServer.load_model] *)
Definition load_model (model_size device compute_type : pyval) : M pyval :=
  try_except Exception
    (let compute_type := resolve_compute_type device compute_type in
     device <- resolve_device device ;;
     m <- new_WhisperModel model_size device compute_type ;;
     set_model (Some m) ;;
     set_model_size model_size ;;
     ret (loaded_payload model_size device compute_type))
    (fun e => ret (failure (exn_str e))).

(** [FasterWhisperServer._load_audio]. The two imports that open the
    method are of modules the engine itself depends on; they succeed. *)
Definition _load_audio (audio_path : pyval) : M audio_input :=
  try_except Exception
    (log (WaveOpen audio_path) ;;
     wf <- lift (wave_open w audio_path) ;;
     audio <- lift (decode_wave wf) ;;
     ret (AudioArray audio))
    (fun _ => ret (AudioPath audio_path)).

Definition exists_on_disk (path : pyval) : M bool :=
  log (PathExists path) ;; lift (os_path_exists w path).

Definition now : M Q :=
  fun p => (Ok (time_time w (List.length (trace p))),
            {| self := self p; trace := trace p ++ [Clock] |}).

(** [self.model.transcribe(audio_data, language=language, beam_size=1, ...)]
    followed by the loop over [segments]. *)
Definition run_engine (m : WhisperModel) (audio_data : audio_input) (language : pyval)
  : M transcription :=
  log (Inference m audio_data language) ;;
  lift (model_transcribe w m audio_data language).

(** [FasterWhisperServer.transcribe] *)
Definition transcribe (audio_path language : pyval) : M pyval :=
  this <- get_self ;;
  match model this with
  | None => ret (failure "Model not loaded")
  | Some loaded =>
      found <- exists_on_disk audio_path ;;
      if negb found then
        ret (failure ("Audio file not found: " ++ py_str audio_path))
      else
        try_except Exception
          (start_time <- now ;;
           audio_data <- _load_audio audio_path ;;
           t <- run_engine loaded audio_data language ;;
           stop_time <- now ;;
           let duration := (stop_time - start_time)%Q in
           ret (transcribed_payload t duration))
          (fun e => ret (failure (exn_str e)))
  end.

(** How one turn of the [for line in sys.stdin] loop ends. *)
Inductive flow : Type := Continue | Break.

(** Lines 173-196: the command of a parsed request is carried out. *)
Definition dispatch (request : pyval) : M flow :=
  command <- lift (py_get request "command" (PStr "")) ;;
  if py_eq_str command "ping" then
    this <- get_self ;;
    print (PDict [("success", PBool true); ("pong", PBool true);
                  ("model", model_size this)]) ;;
    ret Continue
  else if py_eq_str command "load" then
    model_size <- lift (py_get request "model_size" (PStr "base")) ;;
    device <- lift (py_get request "device" (PStr "auto")) ;;
    compute_type <- lift (py_get request "compute_type" (PStr "auto")) ;;
    result <- load_model model_size device compute_type ;;
    print result ;;
    ret Continue
  else if py_eq_str command "transcribe" then
    audio_path <- lift (py_get request "audio_path" (PStr "")) ;;
    language <- lift (py_get request "language" PNone) ;;
    result <- transcribe audio_path language ;;
    print result ;;
    ret Continue
  else if py_eq_str command "quit" then
    print goodbye ;;
    ret Break
  else
    print (failure ("Unknown command: " ++ py_str command)) ;;
    ret Continue.

(** The body of the loop in [run], lines 163-196. *)
Definition handle_line (line : string) : M flow :=
  let line := strip line in
  if is_empty line then ret Continue
  else
    parsed <- try_except is_JSONDecodeError
                (request <- lift (json_loads w line) ;; ret (Some request))
                (fun e => print (failure ("Invalid JSON: " ++ exn_str e)) ;; ret None) ;;
    match parsed with
    | None => ret Continue
    | Some request => dispatch request
    end.

(** [for line in sys.stdin: ...] *)
Fixpoint serve (stdin : list string) : M unit :=
  match stdin with
  | [] => ret tt
  | line :: rest =>
      log (Stdin line) ;;
      next <- handle_line line ;;
      match next with
      | Break => ret tt
      | Continue => serve rest
      end
  end.

Definition banner : pyval :=
  PDict [("ready", PBool true); ("version", PStr "1.0")].

(** [FasterWhisperServer.run] *)
Definition run (stdin : list string) : M unit :=
  print banner ;;
  serve stdin.

Definition boot : proc := {| self := __init__; trace := [] |}.

(** [server = FasterWhisperServer(); server.run()] *)
Definition main (stdin : list string) : result unit * proc :=
  run stdin boot.

(** The request a line carries: what [json.loads] makes of a non-blank
    line it accepts. *)
Definition request_of (line : string) : option pyval :=
  if is_empty (strip line) then None
  else match json_loads w (strip line) with
       | Ok request => Some request
       | Raise _ => None
       end.

End Server.

(** The lines a trace shows as written and as read. *)
Fixpoint stdout_of (evs : list event) : list pyval :=
  match evs with
  | [] => []
  | Stdout payload :: rest => payload :: stdout_of rest
  | _ :: rest => stdout_of rest
  end.

Fixpoint stdin_of (evs : list event) : list string :=
  match evs with
  | [] => []
  | Stdin line :: rest => line :: stdin_of rest
  | _ :: rest => stdin_of rest
  end.

Definition pong (p : proc) : pyval :=
  PDict [("success", PBool true); ("pong", PBool true); ("model", model_size (self p))].

(** ** A concrete environment

    One machine to run the server on: a GPU is present, the [base] model
    can be constructed, and three files exist. *)

Definition dq : string := String (ascii_of_nat 34) EmptyString.
Definition nl : string := String (ascii_of_nat 10) EmptyString.

(** The text of a flat JSON object with string values, as a client
    writes it. *)
Fixpoint json_fields (fields : list (string * string)) : string :=
  match fields with
  | [] => ""
  | [(k, v)] => dq ++ k ++ dq ++ ": " ++ dq ++ v ++ dq
  | (k, v) :: rest => dq ++ k ++ dq ++ ": " ++ dq ++ v ++ dq ++ ", " ++ json_fields rest
  end.

Definition json_object (fields : list (string * string)) : string :=
  "{" ++ json_fields fields ++ "}".

Definition as_dict (fields : list (string * string)) : pyval :=
  PDict (map (fun kv => (fst kv, PStr (snd kv))) fields).

Definition known_requests : list (list (string * string)) :=
  [ [("command", "ping")];
    [("command", "quit")];
    [("command", "load")];
    [("command", "load"); ("model_size", "huge")];
    [("command", "transcribe"); ("audio_path", "clip24.wav")];
    [("command", "transcribe"); ("audio_path", "mono.wav"); ("language", "en")] ].

Fixpoint find_request (text : string) (known : list (list (string * string))) : option pyval :=
  match known with
  | [] => None
  | fields :: rest =>
      if String.eqb text (json_object fields) then Some (as_dict fields)
      else find_request text rest
  end.

(** [json.loads] on the texts used below. *)
Definition studio_json_loads (text : string) : result pyval :=
  if String.eqb text "42" then Ok (PInt 42)
  else match find_request text known_requests with
       | Some request => Ok request
       | None => Raise (Exn JSONDecodeError "Expecting value: line 1 column 1 (char 0)")
       end.

(** 16-bit little-endian PCM bytes of a list of samples. *)
Definition byte_of_Z (z : Z) : byte :=
  match Byte.of_N (Z.to_N (z mod 256)) with Some b => b | None => x00 end.

Definition pcm16 (samples : list Z) : list byte :=
  flat_map (fun s => [byte_of_Z s; byte_of_Z (Z.shiftr s 8)]) samples.

Fixpoint range_from (lo : Z) (n : nat) : list Z :=
  match n with
  | O => []
  | S n' => lo :: range_from (lo + 1) n'
  end.

(** An eighth of a second at 44056 Hz: 5507 frames of a rising ramp. *)
Definition ntsc_clip : wave_file :=
  WaveFile 44056 1 2 5507 (pcm16 (range_from (-2753) (Z.to_nat 5507))).

(** A recording that was stopped as soon as it started. *)
Definition empty_clip : wave_file := WaveFile 8000 1 2 0 [].

Definition riff_error : exn :=
  Exn (OtherError "wave.Error") "file does not start with RIFF id".

Definition studio_wave_open (path : pyval) : result wave_file :=
  if py_eq_str path "clip24.wav" then
    Ok (WaveFile 16000 1 3 2 [x01; x02; x03; x04; x05; x06])
  else if py_eq_str path "mono.wav" then
    Ok (WaveFile 16000 1 2 3 (pcm16 [16384; -32768; 1]))
  else if py_eq_str path "stereo.wav" then
    Ok (WaveFile 16000 2 2 3 (pcm16 [16384; 16384; -32768; -32768; 1; 1]))
  else if py_eq_str path "phone.wav" then
    Ok (WaveFile 8000 1 2 3 (pcm16 [16384; -32768; 1]))
  else if py_eq_str path "ntsc.wav" then Ok ntsc_clip
  else if py_eq_str path "empty.wav" then Ok empty_clip
  else Raise riff_error.

Definition studio : World := {|
  json_loads := studio_json_loads;
  py_repr := fun _ => "...";
  torch_cuda_is_available := Ok true;
  os_environ_get := fun _ => None;
  os_path_join := String.concat "/";
  WhisperModel_raises := fun m =>
    if py_eq_str (wm_model_size m) "base" then None
    else Some (Exn ValueError "Invalid model size");
  os_path_exists := fun path =>
    match path with
    | PStr s => Ok (existsb (String.eqb s) ["clip24.wav"; "mono.wav"; "stereo.wav"; "phone.wav"; "ntsc.wav";
                          "empty.wav"; "notes.txt"])
    | _ => Raise (Exn TypeError "stat: path should be string, bytes, os.PathLike or integer")
    end;
  wave_open := studio_wave_open;
  model_transcribe := fun m audio language =>
    match audio with
    | AudioPath _ => Ok (Transcription [" hello"; " world "] "en" (997 # 1000))
    | AudioArray [] => Raise (Exn ValueError "empty audio")
    | AudioArray _ => Ok (Transcription [" one"] "en" (1 # 2))
    end;
  time_time := fun n => (inject_Z (Z.of_nat n) / inject_Z 4)%Q
|}.

Definition base_model : WhisperModel :=
  MkWhisperModel (PStr "base") (PStr "cuda") (PStr "int8") (download_root studio).

(** The server after a successful [load] of the base model. *)
Definition ready : proc :=
  {| self := {| model := Some base_model; model_size := PStr "base" |}; trace := [] |}.

Definition ping_line : string := json_object [("command", "ping")] ++ nl.
Definition quit_line : string := json_object [("command", "quit")] ++ nl.
Definition load_line : string := json_object [("command", "load")] ++ nl.

(** ** Vocabulary for the properties *)

(** A relation between the process before and after a computation holds
    of the computation when it holds whatever the start. *)
Definition respects {A} (R : proc -> proc -> Prop) (m : M A) : Prop :=
  forall p, R p (snd (m p)).

(** The two attributes are what they were. *)
Definition same_self (p q : proc) : Prop := self q = self p.

(** Nothing was printed and no line was read. *)
Definition same_io (p q : proc) : Prop :=
  stdout_of (trace q) = stdout_of (trace p) /\
  stdin_of (trace q) = stdin_of (trace p).

(** The computation returns: no exception leaves it. *)
Definition returns {A} (m : M A) : Prop :=
  forall p, exists a, fst (m p) = Ok a.

(** The line asks for a [load]. *)
Definition is_load (w : World) (line : string) : bool :=
  match request_of w line with
  | Some (PDict items) => py_eq_str (dict_get items "command" (PStr "")) "load"
  | _ => false
  end.





(** Element [i] of [np.arange(n)]. *)
Definition knot (i : nat) : Q := inject_Z (Z.of_nat i).

(** ** The script around the class *)

(** How the process ends: a return from the script or [sys.exit], or an
    exception nobody caught, which the interpreter reports with status 1. *)
Inductive ending : Type :=
| Exit (status : Z)
| Uncaught (e : exn).

Definition install_hint : pyval :=
  failure "faster-whisper not installed. Run: pip install faster-whisper".

(** Lines 27-31 and 199-201: the guarded import of the engine, then
    [server = FasterWhisperServer(); server.run()]. [import_engine] is what
    [from faster_whisper import WhisperModel] does on this machine. *)
Definition script (w : World) (import_engine : result unit) (stdin : list string)
  : ending * proc :=
  match import_engine with
  | Raise e =>
      if is_ImportError e then
        (Exit 1, snd (print install_hint boot))
      else (Uncaught e, boot)
  | Ok _ =>
      match main w stdin with
      | (Ok _, p) => (Exit 0, p)
      | (Raise e, p) => (Uncaught e, p)
      end
  end.

(** ** A second environment

    The same machine with more kinds of request and of file, and with the
    GPU probe left open. *)

Definition lab_json_loads (text : string) : result pyval :=
  if String.eqb text "{}" then Ok (PDict [])
  else if String.eqb text (json_object [("command", "dance")]) then
    Ok (as_dict [("command", "dance")])
  else studio_json_loads text.

(** 32-bit little-endian PCM bytes of a list of samples. *)
Definition pcm32 (samples : list Z) : list byte :=
  flat_map (fun s => [byte_of_Z s; byte_of_Z (Z.shiftr s 8);
                      byte_of_Z (Z.shiftr s 16); byte_of_Z (Z.shiftr s 24)]) samples.

Definition lab_wave_open (path : pyval) : result wave_file :=
  if py_eq_str path "odd.wav" then Ok (WaveFile 16000 1 2 1 [x01; x02; x03])
  else if py_eq_str path "ragged.wav" then Ok (WaveFile 16000 2 2 1 (pcm16 [1; 2; 3]))
  else if py_eq_str path "norate.wav" then Ok (WaveFile 0 1 2 2 (pcm16 [1; 2]))
  else if py_eq_str path "silent.wav" then Ok (WaveFile 16000 1 2 0 [])
  else if py_eq_str path "wide.wav" then
    Ok (WaveFile 48000 2 4 6
          (pcm32 [2147483647; -2147483648; 5; 7; -1; 1; 0; 0; 1000000; -1000000; 3; 9]))
  else studio_wave_open path.

Definition lab (torch : result bool) : World := {|
  json_loads := lab_json_loads;
  py_repr := py_repr studio;
  torch_cuda_is_available := torch;
  os_environ_get := os_environ_get studio;
  os_path_join := os_path_join studio;
  WhisperModel_raises := WhisperModel_raises studio;
  os_path_exists := fun path =>
    match path with
    | PStr s => Ok (negb (String.eqb s "gone.wav"))
    | _ => os_path_exists studio path
    end;
  wave_open := lab_wave_open;
  model_transcribe := model_transcribe studio;
  time_time := time_time studio
|}.

Definition no_torch : exn := Exn ImportError "No module named 'torch'".
Definition broken_driver : exn := Exn (OtherError "OSError") "libcudart.so: cannot open shared object file".

(** ** More vocabulary *)

(** The identifier the server reports is the one its model was built
    from, and the model was built over the application's cache directory;
    with no model there is no identifier. *)
Definition consistent (w : World) (s : FasterWhisperServer) : Prop :=
  match model s with
  | None => model_size s = PNone
  | Some m => model_size s = wm_model_size m /\ wm_download_root m = download_root w
  end.

(** The trace only grows. *)
Definition extends (p q : proc) : Prop :=
  exists evs, trace q = (trace p ++ evs)%list.

(** At most one line was printed and none was read. *)
Definition answered_at_most_once (p q : proc) : Prop :=
  stdin_of (trace q) = stdin_of (trace p) /\
  exists outs, stdout_of (trace q) = (stdout_of (trace p) ++ outs)%list /\
               (List.length outs <= 1)%nat.

Fixpoint all_space (s : string) : bool :=
  match s with
  | EmptyString => true
  | String c rest => is_space c && all_space rest
  end.

(** What [_load_audio] returns for a path: the decoded samples, or the
    path when the container cannot be opened or decoded. *)
Definition loaded_audio (w : World) (path : pyval) : audio_input :=
  match wave_open w path with
  | Ok wf =>
      match decode_wave wf with
      | Ok audio => AudioArray audio
      | Raise _ => AudioPath path
      end
  | Raise _ => AudioPath path
  end.

(** A value between two bounds. *)
Definition within (lo hi v : Q) : Prop := (lo <= v /\ v <= hi)%Q.

(** * Properties *)

(** ** Composition lemmas for the method monad *)

Section Respects.

Variable R : proc -> proc -> Prop.
Hypothesis R_refl : forall p, R p p.
Hypothesis R_trans : forall p q r, R p q -> R q r -> R p r.

Lemma respects_ret {A} (a : A) : respects R (ret a).
Proof. intro p. apply R_refl. Qed.

Lemma respects_raise {A} (e : exn) : respects R (@raise A e).
Proof. intro p. apply R_refl. Qed.

Lemma respects_lift {A} (r : result A) : respects R (lift r).
Proof. intro p. apply R_refl. Qed.

Lemma respects_get_self : respects R get_self.
Proof. intro p. apply R_refl. Qed.

Lemma respects_bind {A B} (m : M A) (k : A -> M B) :
  respects R m -> (forall a, respects R (k a)) -> respects R (bind m k).
Proof.
  intros Hm Hk p. unfold bind. specialize (Hm p).
  destruct (m p) as [[a | e] q]; simpl in *.
  - eapply R_trans; [exact Hm | apply Hk].
  - exact Hm.
Qed.

Lemma respects_try {A} (catches : exn -> bool) (body : M A) (handler : exn -> M A) :
  respects R body -> (forall e, respects R (handler e)) ->
  respects R (try_except catches body handler).
Proof.
  intros Hb Hh p. unfold try_except. specialize (Hb p).
  destruct (body p) as [[a | e] q]; simpl in *.
  - exact Hb.
  - destruct (catches e); simpl.
    + eapply R_trans; [exact Hb | apply Hh].
    + exact Hb.
Qed.

End Respects.

Lemma same_self_refl p : same_self p p.
Proof. reflexivity. Qed.

Lemma same_self_trans p q r : same_self p q -> same_self q r -> same_self p r.
Proof. unfold same_self. congruence. Qed.

Lemma same_io_refl p : same_io p p.
Proof. split; reflexivity. Qed.

Lemma same_io_trans p q r : same_io p q -> same_io q r -> same_io p r.
Proof. unfold same_io. intros [] []. split; congruence. Qed.

Lemma stdout_of_app evs evs' : stdout_of (evs ++ evs') = (stdout_of evs ++ stdout_of evs')%list.
Proof.
  induction evs as [| ev evs IH]; simpl; [reflexivity |].
  destruct ev; simpl; rewrite IH; reflexivity.
Qed.

Lemma stdin_of_app evs evs' : stdin_of (evs ++ evs') = (stdin_of evs ++ stdin_of evs')%list.
Proof.
  induction evs as [| ev evs IH]; simpl; [reflexivity |].
  destruct ev; simpl; rewrite IH; reflexivity.
Qed.

Lemma log_same_self ev : respects same_self (log ev).
Proof. intro p. reflexivity. Qed.

Lemma log_same_io ev :
  stdout_of [ev] = [] -> stdin_of [ev] = [] -> respects same_io (log ev).
Proof.
  intros Ho Hi p. split; simpl.
  - rewrite stdout_of_app, Ho. apply app_nil_r.
  - rewrite stdin_of_app, Hi. apply app_nil_r.
Qed.

Create HintDb py discriminated.

#[export] Hint Resolve same_self_refl same_self_trans same_io_refl same_io_trans : py.
#[export] Hint Resolve respects_ret respects_raise respects_lift respects_get_self
  log_same_self : py.

(** Closes goals [respects R m] by following the structure of [m]. *)
Ltac respects_step :=
  match goal with
  | |- respects _ (bind _ _) => apply respects_bind; [eauto with py .. | | intro]
  | |- respects _ (try_except _ _ _) => apply respects_try; [eauto with py .. | | intro]
  | |- respects same_io (log _) => apply log_same_io; reflexivity
  | |- respects _ (match ?x with _ => _ end) => destruct x
  | |- respects _ (if ?b then _ else _) => destruct b
  | |- respects _ _ => solve [eauto with py]
  end.

Ltac respects_auto := repeat respects_step.

Section ServerProperties.

Variable w : World.

Lemma now_same_self : respects same_self (now w).
Proof. intro p. reflexivity. Qed.

Lemma now_same_io : respects same_io (now w).
Proof.
  intro p. split; simpl.
  - rewrite stdout_of_app. apply app_nil_r.
  - rewrite stdin_of_app. apply app_nil_r.
Qed.

Hint Resolve now_same_self now_same_io : py.

Lemma _load_audio_same_self path : respects same_self (_load_audio w path).
Proof. unfold _load_audio. respects_auto. Qed.

Lemma _load_audio_same_io path : respects same_io (_load_audio w path).
Proof. unfold _load_audio. respects_auto. Qed.

Hint Resolve _load_audio_same_self _load_audio_same_io : py.

Lemma transcribe_same_self path language : respects same_self (transcribe w path language).
Proof. unfold transcribe, exists_on_disk, run_engine. respects_auto. Qed.

Lemma transcribe_same_io path language : respects same_io (transcribe w path language).
Proof. unfold transcribe, exists_on_disk, run_engine. respects_auto. Qed.

Lemma resolve_device_same_self device : respects same_self (resolve_device w device).
Proof. unfold resolve_device, probe_cuda. respects_auto. Qed.

Lemma load_model_same_io size device compute_type :
  respects same_io (load_model w size device compute_type).
Proof.
  unfold load_model, resolve_device, probe_cuda, new_WhisperModel.
  respects_auto; intro p; split; reflexivity.
Qed.

End ServerProperties.

(** ** Running a computation step by step *)

Lemma bind_ok {A B} (m : M A) (k : A -> M B) p a q :
  m p = (Ok a, q) -> bind m k p = k a q.
Proof. intro H. unfold bind. rewrite H. reflexivity. Qed.

Lemma bind_lift_ok {A B} (a : A) (k : A -> M B) : bind (lift (Ok a)) k = k a.
Proof. reflexivity. Qed.

Lemma py_eq_str_true v s : py_eq_str v s = true -> v = PStr s.
Proof.
  destruct v; simpl; try discriminate.
  intro H. apply String.eqb_eq in H. congruence.
Qed.

Lemma try_except_returns {A} (body : M A) (handler : exn -> M A) :
  (forall e, returns (handler e)) -> returns (try_except Exception body handler).
Proof.
  intros Hh p. unfold try_except.
  destruct (body p) as [[a | e] q]; simpl.
  - exists a. reflexivity.
  - apply Hh.
Qed.

Lemma ret_returns {A} (a : A) : returns (ret a).
Proof. intro p. exists a. reflexivity. Qed.

Lemma load_model_returns w size device compute_type :
  returns (load_model w size device compute_type).
Proof. apply try_except_returns. intro e. apply ret_returns. Qed.


Lemma print_appends payload p :
  print payload p = (Ok tt, {| self := self p; trace := trace p ++ [Stdout payload] |}).
Proof. reflexivity. Qed.


(** ** The command loop *)

Lemma handle_line_request w line request p :
  request_of w line = Some request -> handle_line w line p = dispatch w request p.
Proof.
  unfold request_of, handle_line. cbv zeta. intro H.
  destruct (is_empty (strip line)); [discriminate |].
  destruct (json_loads w (strip line)) as [request' | e] eqn:Hj; [| discriminate].
  injection H as ->. reflexivity.
Qed.

Lemma handle_line_no_request w line p :
  request_of w line = None -> self (snd (handle_line w line p)) = self p.
Proof.
  unfold request_of, handle_line. cbv zeta. intro H.
  destruct (is_empty (strip line)); [reflexivity |].
  unfold bind, try_except, lift.
  destruct (json_loads w (strip line)) as [request | e]; [discriminate |].
  destruct (is_JSONDecodeError e); reflexivity.
Qed.

(** What [dispatch] does with a JSON object. *)
Lemma dispatch_object w items :
  dispatch w (PDict items) =
    (let command := dict_get items "command" (PStr "") in
     if py_eq_str command "ping" then
       bind get_self (fun this =>
         bind (print (PDict [("success", PBool true); ("pong", PBool true);
                             ("model", model_size this)]))
              (fun _ => ret Continue))
     else if py_eq_str command "load" then
       bind (load_model w (dict_get items "model_size" (PStr "base"))
                          (dict_get items "device" (PStr "auto"))
                          (dict_get items "compute_type" (PStr "auto")))
            (fun result => bind (print result) (fun _ => ret Continue))
     else if py_eq_str command "transcribe" then
       bind (transcribe w (dict_get items "audio_path" (PStr ""))
                          (dict_get items "language" PNone))
            (fun result => bind (print result) (fun _ => ret Continue))
     else if py_eq_str command "quit" then
       bind (print goodbye) (fun _ => ret Break)
     else
       bind (print (failure ("Unknown command: " ++ py_str w command)))
            (fun _ => ret Continue)).
Proof.
  unfold dispatch. cbv zeta. simpl py_get. rewrite bind_lift_ok.
  repeat match goal with
         | |- context [py_eq_str ?c ?s] => destruct (py_eq_str c s); try reflexivity
         end.
Qed.

(** Anything but a JSON object has no [get]. *)
Lemma dispatch_other w request p :
  (forall items, request <> PDict items) ->
  dispatch w request p =
    (Raise (Exn AttributeError
              ("'" ++ py_type_name request ++ "' object has no attribute 'get'")), p).
Proof.
  intro H. destruct request; try reflexivity. exfalso. eapply H. reflexivity.
Qed.

Lemma dispatch_same_self w request :
  (forall items, request = PDict items ->
     py_eq_str (dict_get items "command" (PStr "")) "load" = false) ->
  respects same_self (dispatch w request).
Proof.
  intro Hload. destruct request;
    try (intro p; rewrite dispatch_other by discriminate; reflexivity).
  rewrite dispatch_object. cbv zeta. rewrite (Hload items eq_refl).
  pose proof (transcribe_same_self w) as Ht.
  unfold print. respects_auto.
Qed.


Lemma serve_cons w line rest p :
  serve w (line :: rest) p =
    match handle_line w line {| self := self p; trace := trace p ++ [Stdin line] |} with
    | (Ok Continue, q) => serve w rest q
    | (Ok Break, q) => (Ok tt, q)
    | (Raise e, q) => (Raise e, q)
    end.
Proof.
  simpl. unfold bind at 1. unfold log.
  unfold bind at 1.
  destruct (handle_line w line _) as [[[|] | e] q]; reflexivity.
Qed.

(** ** The two ways out of [transcribe] and [_load_audio] that skip the engine *)

Lemma transcribe_unloaded (w : World) (audio_path language : pyval) (p : proc) :
  model (self p) = None ->
  transcribe w audio_path language p = (Ok (failure "Model not loaded"), p).
Proof.
  intro Hnone. unfold transcribe. erewrite bind_ok by reflexivity.
  rewrite Hnone. reflexivity.
Qed.

Lemma _load_audio_undecodable (w : World) (path : pyval) (p : proc) (e : exn) :
  wave_open w path = Raise e \/
  (exists wf, wave_open w path = Ok wf /\ decode_wave wf = Raise e) ->
  _load_audio w path p =
    (Ok (AudioPath path), {| self := self p; trace := trace p ++ [WaveOpen path] |}).
Proof.
  intros [Hopen | [wf [Hopen Hdecode]]];
    unfold _load_audio, try_except, bind, log, lift; simpl; rewrite Hopen; simpl.
  - reflexivity.
  - rewrite Hdecode. reflexivity.
Qed.

(** C4. With no model loaded, [transcribe] answers the structured failure
    "Model not loaded" for every audio path and language; the process it
    leaves is the one it found, attributes and trace alike, so no model
    was constructed and the path was neither tested nor opened. *)
Theorem transcribe_before_load (w : World) (audio_path language : pyval) (p : proc) :
  model (self p) = None ->
  transcribe w audio_path language p = (Ok (failure "Model not loaded"), p).
Proof.
  intro Hnone. unfold transcribe, bind, get_self.
  rewrite Hnone. reflexivity.
Qed.

Lemma transcribe_before_load_witness :
  model (self boot) = None /\
  transcribe studio (PStr "mono.wav") PNone boot = (Ok (failure "Model not loaded"), boot).
Proof.
  split; [reflexivity |].
  apply (transcribe_before_load studio (PStr "mono.wav") PNone boot). reflexivity.
Defined.

(** C7. When the container at a path cannot be opened, or is opened and
    cannot be decoded, [_load_audio] returns the path it was given and
    raises nothing; all that happened is the attempt to open the file. *)
Theorem _load_audio_falls_back_to_path (w : World) (path : pyval) (p : proc) (e : exn) :
  wave_open w path = Raise e \/
  (exists wf, wave_open w path = Ok wf /\ decode_wave wf = Raise e) ->
  _load_audio w path p =
    (Ok (AudioPath path), {| self := self p; trace := trace p ++ [WaveOpen path] |}).
Proof.
  intro Hfails. unfold _load_audio, try_except, bind, log, lift. cbn [fst snd self trace].
  destruct Hfails as [Hopen | [wf [Hopen Hdecode]]]; rewrite Hopen; cbv iota beta.
  - reflexivity.
  - rewrite Hdecode. reflexivity.
Qed.

Lemma _load_audio_falls_back_to_path_witness :
  wave_open studio (PStr "notes.txt") = Raise riff_error /\
  _load_audio studio (PStr "notes.txt") ready =
    (Ok (AudioPath (PStr "notes.txt")),
     {| self := self ready; trace := trace ready ++ [WaveOpen (PStr "notes.txt")] |}).
Proof.
  split; [reflexivity |].
  apply (_load_audio_falls_back_to_path studio (PStr "notes.txt") ready riff_error).
  left. reflexivity.
Defined.

(** C8. The model handle and the model identifier change only under
    [load]: a turn of the loop on any line that is not a load request
    (ping, transcribe, quit, an unknown command, a blank or malformed line)
    leaves both as they were, [transcribe] never touches them, and its two
    precondition failures answer without changing them. *)
Theorem state_changes_only_on_load (w : World) (p : proc) :
  (forall line, is_load w line = false -> self (snd (handle_line w line p)) = self p) /\
  (forall path language, self (snd (transcribe w path language p)) = self p) /\
  (forall path language, model (self p) = None ->
     transcribe w path language p = (Ok (failure "Model not loaded"), p)) /\
  (forall path language, model (self p) <> None -> os_path_exists w path = Ok false ->
     fst (transcribe w path language p)
       = Ok (failure ("Audio file not found: " ++ py_str w path)) /\
     self (snd (transcribe w path language p)) = self p).
Proof.
  repeat split.
  - intros line Hload. unfold is_load in Hload.
    destruct (request_of w line) as [request |] eqn:Hreq.
    + rewrite (handle_line_request _ _ _ _ Hreq).
      apply dispatch_same_self. intros items ->. exact Hload.
    + apply handle_line_no_request, Hreq.
  - intros path language. apply transcribe_same_self.
  - intros path language. apply transcribe_unloaded.
  - unfold transcribe. erewrite bind_ok by reflexivity.
    destruct (model (self p)); [| contradiction].
    unfold exists_on_disk, bind, log, lift. simpl. rewrite H0. reflexivity.
  - apply transcribe_same_self.
Qed.

Lemma state_changes_only_on_load_witness :
  self (snd (handle_line studio ping_line ready)) = self ready /\
  self (snd (handle_line studio quit_line ready)) = self ready /\
  fst (transcribe studio (PStr "gone.wav") PNone ready)
    = Ok (failure "Audio file not found: gone.wav").
Proof.
  pose proof (state_changes_only_on_load studio ready) as [Hline [_ [_ Hmissing]]].
  split; [| split].
  - apply Hline. reflexivity.
  - apply Hline. reflexivity.
  - apply (Hmissing (PStr "gone.wav") PNone); [discriminate | reflexivity].
Defined.

(** C9. A line whose command is [quit] is answered by the one line
    [{"success": true, "goodbye": true}] and ends the loop: the outcome is
    the same whatever follows the line on standard input, so nothing after
    it is read, processed or answered. *)
Theorem quit_ends_the_loop (w : World) (line : string) (items : list (string * pyval)) :
  request_of w line = Some (PDict items) ->
  py_eq_str (dict_get items "command" (PStr "")) "quit" = true ->
  forall (before after : list string) (p : proc),
    serve w (line :: after) p =
      (Ok tt, {| self := self p; trace := trace p ++ [Stdin line; Stdout goodbye] |}) /\
    serve w (before ++ line :: after) p = serve w (before ++ [line]) p /\
    main w (before ++ line :: after) = main w (before ++ [line]).
Proof.
  intros Hreq Hquit before after.
  assert (Hturn : forall rest p,
    serve w (line :: rest) p =
      (Ok tt, {| self := self p; trace := trace p ++ [Stdin line; Stdout goodbye] |})).
  { intros rest p. rewrite serve_cons, (handle_line_request _ _ _ _ Hreq), dispatch_object.
    cbv zeta. apply py_eq_str_true in Hquit. rewrite Hquit. simpl.
    unfold bind, print, log, ret. simpl. rewrite <- app_assoc. reflexivity. }
  assert (Hany : forall p, serve w (before ++ line :: after) p = serve w (before ++ [line]) p).
  { induction before as [| first before IH]; intro p.
    - simpl app. rewrite !Hturn. reflexivity.
    - rewrite <- !app_comm_cons, !serve_cons.
      destruct (handle_line w first _) as [[[|] | e] q]; auto. }
  intro p. repeat split.
  - apply Hturn.
  - apply Hany.
  - unfold main, run. erewrite !bind_ok by apply print_appends. apply Hany.
Qed.

Lemma quit_ends_the_loop_witness :
  serve studio [quit_line; ping_line; load_line] ready =
    (Ok tt, {| self := self ready;
               trace := trace ready ++ [Stdin quit_line; Stdout goodbye] |}).
Proof.
  apply (quit_ends_the_loop studio quit_line [("command", PStr "quit")]
           eq_refl eq_refl [] [ping_line; load_line] ready).
Defined.

(** C10. A [load] whose model constructor raises answers the structured
    failure that carries the exception's message and leaves the model
    handle and the model identifier as they were; a ping that follows
    still reports the identifier of the model loaded before. *)
Theorem load_failure_is_atomic (w : World) (size device compute_type : pyval)
    (p q : proc) (resolved : pyval) (e : exn) :
  resolve_device w device p = (Ok resolved, q) ->
  WhisperModel_raises w
    (MkWhisperModel size resolved (resolve_compute_type device compute_type)
                    (download_root w)) = Some e ->
  let after := snd (load_model w size device compute_type p) in
  fst (load_model w size device compute_type p) = Ok (failure (exn_str e)) /\
  self after = self p /\
  forall ping items,
    request_of w ping = Some (PDict items) ->
    py_eq_str (dict_get items "command" (PStr "")) "ping" = true ->
    exists p', handle_line w ping after = (Ok Continue, p') /\
               stdout_of (trace p') = (stdout_of (trace after) ++ [pong p])%list.
Proof.
  intros Hdev Hraise after.
  assert (Hself : self q = self p).
  { pose proof (resolve_device_same_self w device p) as H. rewrite Hdev in H. exact H. }
  assert (Hrun : load_model w size device compute_type p =
                 (Ok (failure (exn_str e)),
                  {| self := self q;
                     trace := trace q ++
                       [ModelInit (MkWhisperModel size resolved
                          (resolve_compute_type device compute_type) (download_root w))] |})).
  { unfold load_model, try_except. cbv zeta. erewrite bind_ok by exact Hdev.
    unfold new_WhisperModel. cbv zeta. unfold bind at 1. unfold log at 1. cbv iota beta.
    rewrite Hraise. reflexivity. }
  subst after. rewrite Hrun. simpl. repeat split.
  - exact Hself.
  - intros ping items Hreq Hping.
    rewrite (handle_line_request _ _ _ _ Hreq), dispatch_object. cbv zeta.
    rewrite Hping. eexists. split; [reflexivity |].
    simpl. rewrite stdout_of_app. simpl. unfold pong. rewrite Hself. reflexivity.
Qed.

Lemma load_failure_is_atomic_witness :
  fst (load_model studio (PStr "huge") (PStr "auto") (PStr "auto") ready)
    = Ok (failure "Invalid model size") /\
  self (snd (load_model studio (PStr "huge") (PStr "auto") (PStr "auto") ready))
    = self ready.
Proof.
  pose proof (load_failure_is_atomic studio (PStr "huge") (PStr "auto") (PStr "auto")
                ready {| self := self ready; trace := [TorchProbe] |} (PStr "cuda")
                (Exn ValueError "Invalid model size") eq_refl eq_refl) as [Hfail [Hself _]].
  split; assumption.
Defined.

(** C2 (what the code does at the failing input). With both [device] and
    [compute_type] left at "auto" and a GPU available, [load_model]
    constructs the model on "cuda" with compute type "int8" and reports
    that pair: the compute type was chosen while [device] still read
    "auto". *)
Theorem auto_device_on_gpu_gets_int8 (w : World) (size : pyval) (p : proc) :
  torch_cuda_is_available w = Ok true ->
  WhisperModel_raises w
    (MkWhisperModel size (PStr "cuda") (PStr "int8") (download_root w)) = None ->
  fst (load_model w size (PStr "auto") (PStr "auto") p)
    = Ok (loaded_payload size (PStr "cuda") (PStr "int8")).
Proof.
  intros Hgpu Hctor.
  unfold load_model, try_except, resolve_device, resolve_compute_type, probe_cuda,
    new_WhisperModel, bind, log, lift, ret.
  simpl. rewrite Hgpu. simpl. rewrite Hctor. reflexivity.
Qed.

Lemma auto_device_on_gpu_gets_int8_witness :
  stdout_of (trace (snd (main studio [load_line]))) =
    [banner; loaded_payload (PStr "base") (PStr "cuda") (PStr "int8")] /\
  fst (load_model studio (PStr "base") (PStr "auto") (PStr "auto") boot)
    = Ok (loaded_payload (PStr "base") (PStr "cuda") (PStr "int8")).
Proof.
  split; [reflexivity |].
  apply (auto_device_on_gpu_gets_int8 studio (PStr "base") boot); reflexivity.
Defined.

(** ** Unsupported sample widths *)

Lemma read_mono_unsupported wf :
  getsampwidth wf <> 2 -> getsampwidth wf <> 4 ->
  read_mono wf =
    Raise (Exn ValueError ("Unsupported sample width: " ++ string_of_Z (getsampwidth wf))).
Proof.
  intros H2 H4. unfold read_mono. cbv zeta.
  destruct (Z.eqb_spec (getsampwidth wf) 2); [contradiction |].
  destruct (Z.eqb_spec (getsampwidth wf) 4); [contradiction |].
  reflexivity.
Qed.

Lemma decode_wave_unsupported wf :
  getsampwidth wf <> 2 -> getsampwidth wf <> 4 ->
  decode_wave wf =
    Raise (Exn ValueError ("Unsupported sample width: " ++ string_of_Z (getsampwidth wf))).
Proof.
  intros H2 H4. unfold decode_wave. cbv zeta.
  rewrite (read_mono_unsupported wf H2 H4). reflexivity.
Qed.

(** C3 (counterexample). A 24-bit container that exists on disk, with a
    model loaded: the answer is a success payload with the text the
    engine decoded from the path, not a failure that carries
    "Unsupported sample width: 3". *)
Lemma unsupported_width_is_not_reported :
  os_path_exists studio (PStr "clip24.wav") = Ok true /\
  option_map getsampwidth
    (match wave_open studio (PStr "clip24.wav") with Ok wf => Some wf | Raise _ => None end)
    = Some 3 /\
  fst (transcribe studio (PStr "clip24.wav") PNone ready) =
    Ok (PDict [("success", PBool true); ("text", PStr "hello world");
               ("duration", PFloat (3 # 4)); ("language", PStr "en");
               ("language_probability", PFloat (997 # 1000))]).
Proof. repeat split. Qed.

(** C3 (amended). For a transcribe request on an existing file whose
    container has a sample width other than 2 or 4 bytes, with a model
    loaded, the width error never reaches the caller: [_load_audio]
    replaces it by the path, the engine is run on the path, and the
    answer is the engine's: its transcription as a success payload, or a
    structured failure with the engine's message. The process does not
    stop and the server state is untouched. *)
Theorem unsupported_width_goes_to_engine (w : World) (path language : pyval) (p : proc)
    (loaded : WhisperModel) (wf : wave_file) :
  model (self p) = Some loaded ->
  os_path_exists w path = Ok true ->
  wave_open w path = Ok wf ->
  getsampwidth wf <> 2 -> getsampwidth wf <> 4 ->
  exists (duration : Q) (p' : proc),
    transcribe w path language p =
      (Ok (match model_transcribe w loaded (AudioPath path) language with
           | Ok t => transcribed_payload t duration
           | Raise e => failure (exn_str e)
           end), p') /\
    self p' = self p /\
    In (Inference loaded (AudioPath path) language) (trace p').
Proof.
  intros Hmodel Hexists Hopen H2 H4.
  pose proof (_load_audio_undecodable w path) as Hfallback.
  unfold transcribe. erewrite bind_ok by reflexivity. rewrite Hmodel.
  unfold exists_on_disk. unfold bind at 1. unfold bind at 1. unfold log at 1, lift at 1.
  cbv iota beta. rewrite Hexists. cbv iota beta. change (negb true) with false. cbv iota beta.
  unfold try_except. unfold bind at 1. unfold now at 1. cbv iota beta.
  unfold bind at 1. erewrite Hfallback
    by (right; exists wf; split; [exact Hopen | apply decode_wave_unsupported; assumption]).
  cbv iota beta. unfold run_engine. unfold bind at 1. unfold bind at 1.
  unfold log at 1, lift at 1. cbv iota beta.
  destruct (model_transcribe w loaded (AudioPath path) language) as [t | e].
  - eexists. eexists. split; [reflexivity |]. split; [reflexivity |].
    simpl. rewrite !in_app_iff. simpl. tauto.
  - exists 0%Q. eexists. split; [reflexivity |]. split; [reflexivity |].
    simpl. rewrite !in_app_iff. simpl. tauto.
Qed.

Lemma unsupported_width_goes_to_engine_witness :
  exists (duration : Q) (p' : proc),
    transcribe studio (PStr "clip24.wav") PNone ready =
      (Ok (match model_transcribe studio base_model (AudioPath (PStr "clip24.wav")) PNone with
           | Ok t => transcribed_payload t duration
           | Raise e => failure (exn_str e)
           end), p') /\
    self p' = self ready /\
    In (Inference base_model (AudioPath (PStr "clip24.wav")) PNone) (trace p').
Proof.
  apply (unsupported_width_goes_to_engine studio (PStr "clip24.wav") PNone ready base_model
           (WaveFile 16000 1 3 2 [x01; x02; x03; x04; x05; x06]));
    [reflexivity | reflexivity | reflexivity | discriminate | discriminate].
Defined.




Local Open Scope list_scope.

(** ** binary64: conversions that are exact *)









(** ** binary64: results that stay finite *)













(** The binary64 operations of the model and the processor's agree on the
    product that decides the length for 5507 frames at 44056 Hz, and on a
    few more. *)
Lemma new_length_matches_hardware :
  forallb (fun '(len, rate) =>
             match py_truediv 16000 rate with
             | Ok ratio =>
                 match py_int_mul_float len ratio with
                 | Ok x => SFeqb x (hardware_product len rate)
                 | Raise _ => false
                 end
             | Raise _ => false
             end)
          [(5507, 44056); (19, 19); (3, 48000); (441, 44100); (12345, 11025);
           (1, 8000); (4294967295, 22050); (160000, 96000)] = true.
Proof. vm_compute. reflexivity. Qed.

(** ** binary64: doubling *)





(** ** Interpolation over [np.arange] *)













(** ** Resampling *)





Lemma np_interp_arange (indices audio : list Q) :
  audio <> [] ->
  np_interp indices (np_arange (List.length audio)) audio =
    Ok (map (interp1 (np_arange (List.length audio)) audio) indices).
Proof.
  intro Hne. unfold np_interp.
  assert (Hlen : List.length (np_arange (List.length audio)) = List.length audio)
    by (unfold np_arange; rewrite length_map, length_seq; reflexivity).
  rewrite Hlen, Nat.eqb_refl.
  destruct audio as [| f0 audio]; [congruence | reflexivity].
Qed.



(** ** 16-bit PCM *)





(** ** Rows and their means *)





(** ** The Audio Loader on containers that parse *)









(** * Further properties of the server *)

(** ** Lines the loop passes over or rejects *)

Lemma rstrip_all_space (s : string) : all_space s = true -> rstrip s = EmptyString.
Proof.
  induction s as [| c rest IH]; [reflexivity |].
  simpl. intro H. apply andb_prop in H. destruct H as [Hc Hrest].
  rewrite (IH Hrest), Hc. reflexivity.
Qed.










(** X3. A request object whose command is none of ping, load, transcribe
    and quit is answered by the failure "Unknown command: " followed by
    the command, and the loop goes on; a request with no [command] key
    counts as the empty command. *)
Theorem unknown_command_is_reported (w : World) (line : string)
    (items : list (string * pyval)) (p : proc) :
  request_of w line = Some (PDict items) ->
  let command := dict_get items "command" (PStr "") in
  py_eq_str command "ping" = false -> py_eq_str command "load" = false ->
  py_eq_str command "transcribe" = false -> py_eq_str command "quit" = false ->
  handle_line w line p =
    (Ok Continue,
     {| self := self p;
        trace := trace p ++
          [Stdout (failure ("Unknown command: " ++ py_str w command)%string)] |}) /\
  (assoc_get "command" items = None ->
   handle_line w line p =
     (Ok Continue,
      {| self := self p; trace := trace p ++ [Stdout (failure "Unknown command: ")] |})).
Proof.
  intros Hreq command Hping Hload Htr Hquit.
  assert (Hrun : handle_line w line p =
            (Ok Continue,
             {| self := self p;
                trace := trace p ++
                  [Stdout (failure ("Unknown command: " ++ py_str w command)%string)] |})).
  { rewrite (handle_line_request _ _ _ _ Hreq), dispatch_object. cbv zeta.
    fold command. rewrite Hping, Hload, Htr, Hquit. reflexivity. }
  split; [exact Hrun |].
  intro Hmissing. rewrite Hrun. unfold command, dict_get. rewrite Hmissing. reflexivity.
Qed.

Lemma unknown_command_is_reported_witness :
  fst (handle_line (lab (Ok true)) (json_object [("command", "dance")] ++ nl)%string ready)
    = Ok Continue /\
  handle_line (lab (Ok true)) ("{}" ++ nl)%string ready =
    (Ok Continue,
     {| self := self ready;
        trace := trace ready ++ [Stdout (failure "Unknown command: ")] |}).
Proof.
  split.
  - destruct (unknown_command_is_reported (lab (Ok true))
                (json_object [("command", "dance")] ++ nl)%string
                [("command", PStr "dance")] ready eq_refl eq_refl eq_refl eq_refl eq_refl)
      as [H _].
    rewrite H. reflexivity.
  - destruct (unknown_command_is_reported (lab (Ok true)) ("{}" ++ nl)%string [] ready
                eq_refl eq_refl eq_refl eq_refl eq_refl) as [_ H].
    apply H. reflexivity.
Defined.

(** ** What [load_model] leaves behind *)

Lemma load_model_run (w : World) (size device compute_type : pyval) (p : proc) :
  load_model w size device compute_type p =
    match resolve_device w device p with
    | (Ok d, q) =>
        let m := MkWhisperModel size d (resolve_compute_type device compute_type)
                   (download_root w) in
        match WhisperModel_raises w m with
        | None =>
            (Ok (loaded_payload size d (resolve_compute_type device compute_type)),
             {| self := {| model := Some m; model_size := size |};
                trace := trace q ++ [ModelInit m] |})
        | Some e =>
            (Ok (failure (exn_str e)),
             {| self := self q; trace := trace q ++ [ModelInit m] |})
        end
    | (Raise e, q) => (Ok (failure (exn_str e)), q)
    end.
Proof.
  unfold load_model, try_except. cbv zeta. unfold bind at 1.
  destruct (resolve_device w device p) as [[d | e] q]; [| reflexivity].
  unfold new_WhisperModel. cbv zeta. unfold bind at 1. unfold bind at 1. unfold log at 1.
  cbv iota beta.
  destruct (WhisperModel_raises w _) as [e |]; reflexivity.
Qed.

Lemma resolve_device_run (w : World) (device : pyval) (p : proc) :
  resolve_device w device p =
    if py_eq_str device "auto" then
      match torch_cuda_is_available w with
      | Ok available =>
          (Ok (if available then PStr "cuda" else PStr "cpu"),
           {| self := self p; trace := trace p ++ [TorchProbe] |})
      | Raise e =>
          if is_ImportError e then
            (Ok (PStr "cpu"), {| self := self p; trace := trace p ++ [TorchProbe] |})
          else (Raise e, {| self := self p; trace := trace p ++ [TorchProbe] |})
      end
    else (Ok device, p).
Proof.
  unfold resolve_device. destruct (py_eq_str device "auto"); [| reflexivity].
  unfold try_except, probe_cuda, bind, log, lift. cbn [fst snd self trace].
  destruct (torch_cuda_is_available w) as [[|] | e]; reflexivity.
Qed.

Lemma load_model_outcome (w : World) (size device compute_type : pyval) (p : proc) :
  exists (payload : pyval) (q : proc),
    load_model w size device compute_type p = (Ok payload, q) /\
    ((exists d,
        payload = loaded_payload size d (resolve_compute_type device compute_type) /\
        self q = {| model := Some (MkWhisperModel size d
                                     (resolve_compute_type device compute_type)
                                     (download_root w));
                    model_size := size |}) \/
     (exists msg, payload = failure msg /\ self q = self p)).
Proof.
  rewrite load_model_run.
  pose proof (resolve_device_same_self w device p) as Hsame. unfold same_self in Hsame.
  destruct (resolve_device w device p) as [[d | e] q]; cbn [snd] in Hsame.
  - cbv zeta. destruct (WhisperModel_raises w _) as [e |].
    + eexists. eexists. split; [reflexivity |]. right. eexists. split; [reflexivity |].
      exact Hsame.
    + eexists. eexists. split; [reflexivity |]. left. exists d. split; reflexivity.
  - eexists. eexists. split; [reflexivity |]. right. eexists. split; [reflexivity | exact Hsame].
Qed.

(** X4. A load has two outcomes and no third: either it answers success
    with the resolved settings and the server now holds a model built
    from exactly those settings together with the requested identifier,
    or it answers a failure and the server holds what it held before.
    [load_model] itself never raises. *)
Theorem load_is_all_or_nothing (w : World) (size device compute_type : pyval) (p : proc) :
  exists (payload : pyval) (q : proc),
    load_model w size device compute_type p = (Ok payload, q) /\
    ((exists d,
        payload = loaded_payload size d (resolve_compute_type device compute_type) /\
        self q = {| model := Some (MkWhisperModel size d
                                     (resolve_compute_type device compute_type)
                                     (download_root w));
                    model_size := size |}) \/
     (exists msg, payload = failure msg /\ self q = self p)).
Proof.
  rewrite load_model_run.
  pose proof (resolve_device_same_self w device p) as Hsame. unfold same_self in Hsame.
  destruct (resolve_device w device p) as [[d | e] q]; cbn [snd] in Hsame; cbv zeta.
  - destruct (WhisperModel_raises w _) as [e |]; eexists; eexists;
      (split; [reflexivity |]).
    + right. exists (exn_str e). split; [reflexivity | exact Hsame].
    + left. exists d. split; reflexivity.
  - eexists. eexists. split; [reflexivity |].
    right. exists (exn_str e). split; [reflexivity | exact Hsame].
Qed.

(** X5. A request that names its device is served without probing for a
    GPU: the only thing [load_model] does to the outside is to construct
    the model, with the device as given and with the compute type as
    given unless that was "auto". *)
Theorem explicit_device_is_never_probed (w : World) (size device compute_type : pyval)
    (p : proc) :
  py_eq_str device "auto" = false ->
  trace (snd (load_model w size device compute_type p)) =
    trace p ++ [ModelInit (MkWhisperModel size device
                             (resolve_compute_type device compute_type) (download_root w))] /\
  (py_eq_str compute_type "auto" = false ->
   resolve_compute_type device compute_type = compute_type).
Proof.
  intro Hdev. split.
  - rewrite load_model_run, resolve_device_run, Hdev. cbv zeta.
    destruct (WhisperModel_raises w _); reflexivity.
  - intro Hct. unfold resolve_compute_type. rewrite Hct. reflexivity.
Qed.

Lemma explicit_device_is_never_probed_witness :
  trace (snd (load_model studio (PStr "base") (PStr "cpu") (PStr "float32") boot)) =
    [ModelInit (MkWhisperModel (PStr "base") (PStr "cpu") (PStr "float32")
                  (download_root studio))].
Proof.
  destruct (explicit_device_is_never_probed studio (PStr "base") (PStr "cpu")
              (PStr "float32") boot eq_refl) as [Htrace Hct].
  rewrite Htrace, (Hct eq_refl). reflexivity.
Defined.

(** X6. With [device] left at "auto" the probe decides: "cuda" when it
    reports a GPU, "cpu" when it reports none or when torch cannot be
    imported. A probe that fails in any other way fails the load with its
    message: no model is constructed and the server state is untouched. *)
Theorem auto_device_follows_the_probe (w : World) (size compute_type : pyval) (p : proc) :
  let built d := MkWhisperModel size d (resolve_compute_type (PStr "auto") compute_type)
                   (download_root w) in
  match torch_cuda_is_available w with
  | Ok available =>
      trace (snd (load_model w size (PStr "auto") compute_type p)) =
        trace p ++ [TorchProbe;
                    ModelInit (built (if available then PStr "cuda" else PStr "cpu"))]
  | Raise e =>
      if is_ImportError e then
        trace (snd (load_model w size (PStr "auto") compute_type p)) =
          trace p ++ [TorchProbe; ModelInit (built (PStr "cpu"))]
      else
        load_model w size (PStr "auto") compute_type p =
          (Ok (failure (exn_str e)),
           {| self := self p; trace := trace p ++ [TorchProbe] |})
  end.
Proof.
  intro built. subst built. cbv beta.
  rewrite load_model_run, resolve_device_run.
  change (py_eq_str (PStr "auto") "auto") with true. cbv iota.
  destruct (torch_cuda_is_available w) as [available | e].
  - cbv zeta.
    match goal with
    | |- context [WhisperModel_raises w ?m] => destruct (WhisperModel_raises w m)
    end; cbn [snd trace]; rewrite <- app_assoc; reflexivity.
  - destruct (is_ImportError e); [| reflexivity].
    cbv zeta.
    match goal with
    | |- context [WhisperModel_raises w ?m] => destruct (WhisperModel_raises w m)
    end; cbn [snd trace]; rewrite <- app_assoc; reflexivity.
Qed.

(** ** The invariant of the server state *)

Lemma load_model_consistent (w : World) (size device compute_type : pyval) (p : proc) :
  consistent w (self p) ->
  consistent w (self (snd (load_model w size device compute_type p))).
Proof.
  intro Hp.
  destruct (load_model_outcome w size device compute_type p)
    as [payload [q [Hrun [[d [_ Hself]] | [msg [_ Hself]]]]]]; rewrite Hrun; cbn [snd].
  - rewrite Hself. unfold consistent. cbn. split; reflexivity.
  - rewrite Hself. exact Hp.
Qed.

Lemma handle_line_consistent (w : World) (line : string) (p : proc) :
  consistent w (self p) -> consistent w (self (snd (handle_line w line p))).
Proof.
  intro Hp. destruct (request_of w line) as [request |] eqn:Hreq.
  - rewrite (handle_line_request _ _ _ _ Hreq).
    destruct request;
      try (rewrite dispatch_other by discriminate; exact Hp).
    destruct (py_eq_str (dict_get items "command" (PStr "")) "load") eqn:Hload.
    + rewrite dispatch_object. cbv zeta.
      destruct (py_eq_str (dict_get items "command" (PStr "")) "ping") eqn:Hping.
      { apply py_eq_str_true in Hping. rewrite Hping in Hload. discriminate. }
      rewrite Hload.
      pose proof (load_model_consistent w (dict_get items "model_size" (PStr "base"))
                    (dict_get items "device" (PStr "auto"))
                    (dict_get items "compute_type" (PStr "auto")) p Hp) as Hq.
      destruct (load_model_returns w (dict_get items "model_size" (PStr "base"))
                  (dict_get items "device" (PStr "auto"))
                  (dict_get items "compute_type" (PStr "auto")) p) as [payload Hok].
      destruct (load_model w _ _ _ p) as [r q] eqn:Hrun. cbn [fst snd] in *. subst r.
      unfold bind. rewrite Hrun. exact Hq.
    + rewrite (dispatch_same_self w (PDict items)); [exact Hp |].
      intros items' Heq. injection Heq as <-. exact Hload.
  - rewrite handle_line_no_request by exact Hreq. exact Hp.
Qed.

Lemma serve_consistent (w : World) (stdin : list string) :
  forall p, consistent w (self p) -> consistent w (self (snd (serve w stdin p))).
Proof.
  induction stdin as [| line rest IH]; intros p Hp; [exact Hp |].
  rewrite serve_cons.
  pose proof (handle_line_consistent w line
                {| self := self p; trace := trace p ++ [Stdin line] |} Hp) as Hq.
  destruct (handle_line w line _) as [[[|] | e] q]; cbn [snd] in *; auto.
Qed.

(** X7. Whatever arrives on standard input, the server state stays
    consistent: while no model is held the identifier is [None], and a
    held model was built from the identifier the server reports and over
    the application's cache directory. *)
Theorem server_state_stays_consistent (w : World) (stdin : list string) :
  consistent w (self (snd (main w stdin))).
Proof.
  unfold main, run. erewrite bind_ok by apply print_appends.
  apply serve_consistent. reflexivity.
Qed.

(** ** From the path to the answer *)

Lemma _load_audio_run (w : World) (path : pyval) (p : proc) :
  _load_audio w path p =
    (Ok (loaded_audio w path), {| self := self p; trace := trace p ++ [WaveOpen path] |}).
Proof.
  unfold _load_audio, loaded_audio, try_except, bind, log, lift. cbn [fst snd self trace].
  destruct (wave_open w path) as [wf | e]; [| reflexivity].
  cbv iota beta. destruct (decode_wave wf); reflexivity.
Qed.



(** ** Counting lines *)

Lemma answered_at_most_once_refl p : answered_at_most_once p p.
Proof.
  split; [reflexivity |]. exists []. split; [symmetry; apply app_nil_r | simpl; lia].
Qed.

Lemma same_io_answered p q : same_io p q -> answered_at_most_once p q.
Proof.
  intros [Ho Hi]. split; [exact Hi |].
  exists []. rewrite Ho. split; [symmetry; apply app_nil_r | simpl; lia].
Qed.

Lemma print_after_same_io (m : M pyval) (next : flow) (p : proc) :
  respects same_io m ->
  answered_at_most_once p
    (snd (bind m (fun result => bind (print result) (fun _ => ret next)) p)).
Proof.
  intro Hio. destruct (Hio p) as [Ho Hi]. unfold bind, print, log, ret.
  destruct (m p) as [[payload | e] q]; cbn [fst snd] in *.
  - split; cbn [trace].
    + rewrite stdin_of_app, Hi. apply app_nil_r.
    + exists [payload]. rewrite stdout_of_app, Ho. split; [reflexivity | simpl; lia].
  - apply same_io_answered. split; assumption.
Qed.

Lemma print_answered (payload : pyval) (next : flow) (p : proc) :
  answered_at_most_once p (snd (bind (print payload) (fun _ => ret next) p)).
Proof.
  unfold bind, print, log, ret. cbn [fst snd]. split; cbn [trace].
  - rewrite stdin_of_app. apply app_nil_r.
  - exists [payload]. rewrite stdout_of_app. split; [reflexivity | simpl; lia].
Qed.

Lemma dispatch_answers_at_most_once (w : World) (request : pyval) :
  respects answered_at_most_once (dispatch w request).
Proof.
  intro p. destruct request;
    try (rewrite dispatch_other by discriminate; apply answered_at_most_once_refl).
  rewrite dispatch_object. cbv zeta.
  destruct (py_eq_str (dict_get items "command" (PStr "")) "ping").
  { unfold bind at 1. unfold get_self. cbv iota beta. apply print_answered. }
  destruct (py_eq_str (dict_get items "command" (PStr "")) "load").
  { apply print_after_same_io, load_model_same_io. }
  destruct (py_eq_str (dict_get items "command" (PStr "")) "transcribe").
  { apply print_after_same_io, transcribe_same_io. }
  destruct (py_eq_str (dict_get items "command" (PStr "")) "quit");
    apply print_answered.
Qed.

Lemma handle_line_answers_at_most_once (w : World) (line : string) :
  respects answered_at_most_once (handle_line w line).
Proof.
  intro p. destruct (request_of w line) as [request |] eqn:Hreq.
  - rewrite (handle_line_request _ _ _ _ Hreq). apply dispatch_answers_at_most_once.
  - unfold request_of in Hreq. unfold handle_line. cbv zeta.
    destruct (is_empty (strip line)); [apply answered_at_most_once_refl |].
    unfold bind, try_except, lift.
    destruct (json_loads w (strip line)) as [request | e]; [discriminate |].
    destruct (is_JSONDecodeError e).
    + unfold print, log, ret. cbn [fst snd]. split; cbn [trace].
      * rewrite stdin_of_app. apply app_nil_r.
      * eexists [_]. rewrite stdout_of_app. split; [reflexivity | simpl; lia].
    + apply answered_at_most_once_refl.
Qed.

Lemma serve_accounting (w : World) (stdin : list string) :
  forall p, exists (read unread : list string) (outs : list pyval),
    stdin = read ++ unread /\
    stdin_of (trace (snd (serve w stdin p))) = stdin_of (trace p) ++ read /\
    stdout_of (trace (snd (serve w stdin p))) = stdout_of (trace p) ++ outs /\
    (List.length outs <= List.length read)%nat.
Proof.
  induction stdin as [| line rest IH]; intro p.
  - exists [], [], []. cbn. rewrite !app_nil_r. auto.
  - rewrite serve_cons.
    pose proof (handle_line_answers_at_most_once w line
                  {| self := self p; trace := trace p ++ [Stdin line] |})
      as [Hin [outs [Hout Hlen]]].
    cbn [trace] in Hin, Hout. rewrite stdin_of_app in Hin. rewrite stdout_of_app in Hout.
    cbn [stdin_of stdout_of] in Hin, Hout. rewrite app_nil_r in Hout.
    destruct (handle_line w line _) as [[[|] | e] q]; cbn [snd] in *.
    + destruct (IH q) as [read [unread [outs' [Hsplit [Hin' [Hout' Hlen']]]]]].
      exists (line :: read), unread, (outs ++ outs').
      rewrite Hin', Hout', Hin, Hout, Hsplit, <- !app_assoc. cbn [app].
      repeat split; try reflexivity. rewrite length_app. cbn [List.length]. lia.
    + exists [line], rest, outs. rewrite Hin, Hout. repeat split; cbn [List.length]; lia.
    + exists [line], rest, outs. rewrite Hin, Hout. repeat split; cbn [List.length]; lia.
Qed.

Lemma output_banner_first (w : World) (stdin : list string) :
  exists responses, stdout_of (trace (snd (main w stdin))) = banner :: responses.
Proof.
  unfold main, run. erewrite bind_ok by apply print_appends.
  destruct (serve_accounting w stdin
              {| self := self boot; trace := trace boot ++ [Stdout banner] |})
    as [read [unread [outs [_ [_ [Hout _]]]]]].
  exists outs. exact Hout.
Qed.

(** X9. On any input the server prints the banner first and then at most
    one line for each line it has read; it reads the lines in order, from
    the first on, and never prints ahead of its reading. *)
Theorem output_follows_input (w : World) (stdin : list string) :
  exists (read unread : list string) (responses : list pyval),
    stdin = read ++ unread /\
    stdin_of (trace (snd (main w stdin))) = read /\
    stdout_of (trace (snd (main w stdin))) = banner :: responses /\
    (List.length responses <= List.length read)%nat.
Proof.
  unfold main, run. erewrite bind_ok by apply print_appends.
  destruct (serve_accounting w stdin
              {| self := self boot; trace := trace boot ++ [Stdout banner] |})
    as [read [unread [outs [Hsplit [Hin [Hout Hlen]]]]]].
  exists read, unread, outs. rewrite Hin, Hout. auto.
Qed.

(** X10. The script as a whole: when the engine cannot be imported the
    process prints the install hint and nothing else, reads nothing and
    exits with status 1 (any other failure of the import goes uncaught,
    with nothing printed); when the import succeeds the first line
    printed is the banner, and the exit status is 0 exactly when the loop
    ended by [quit] or at the end of input rather than by an exception. *)
Theorem script_outcomes (w : World) (import_engine : result unit) (stdin : list string) :
  match import_engine with
  | Raise e =>
      script w import_engine stdin =
        if is_ImportError e then
          (Exit 1, {| self := __init__; trace := [Stdout install_hint] |})
        else (Uncaught e, boot)
  | Ok _ =>
      (exists responses,
         stdout_of (trace (snd (script w import_engine stdin))) = banner :: responses) /\
      (fst (script w import_engine stdin) = Exit 0 <-> fst (main w stdin) = Ok tt)
  end.
Proof.
  destruct import_engine as [u | e].
  - unfold script.
    destruct (output_banner_first w stdin) as [responses Hout].
    destruct (main w stdin) as [[[] | e] q]; cbn [fst snd] in *.
    + split; [exists responses; exact Hout |]. split; reflexivity.
    + split; [exists responses; exact Hout |]. split; discriminate.
  - unfold script. destruct (is_ImportError e); reflexivity.
Qed.

(** ** Byte counts *)










(** ** Nothing to resample, or no rate to resample from *)

Lemma resample_empty (sample_rate : Z) : exists e, resample [] sample_rate = Raise e.
Proof.
  unfold resample. cbv zeta.
  destruct (new_length _ sample_rate) as [n | e]; [| eexists; reflexivity].
  destruct (np_linspace _ _ n) as [indices | e]; [| eexists; reflexivity].
  eexists. reflexivity.
Qed.

Lemma resample_zero_rate (audio : list Q) : exists e, resample audio 0 = Raise e.
Proof. unfold resample, new_length. cbv zeta. eexists. reflexivity. Qed.

(** X12. A container with no frame is returned as an empty sample array
    when its rate is 16000 Hz and as the path at every other rate; and a
    container that declares a rate of 0 is always returned as the path,
    the division by the rate being caught like any decoding error. *)
Theorem empty_or_rateless_recordings (w : World) (path : pyval) (p : proc)
    (wf : wave_file) :
  wave_open w path = Ok wf ->
  (read_mono wf = Ok [] ->
   fst (_load_audio w path p) =
     Ok (if getframerate wf =? 16000 then AudioArray [] else AudioPath path)) /\
  (getframerate wf = 0 -> fst (_load_audio w path p) = Ok (AudioPath path)).
Proof.
  intro Hopen. rewrite _load_audio_run. cbn [fst]. unfold loaded_audio. rewrite Hopen.
  unfold decode_wave. cbv zeta. split.
  - intros ->. destruct (getframerate wf =? 16000); cbn [negb]; cbv iota; [reflexivity |].
    destruct (resample_empty (getframerate wf)) as [e ->]. reflexivity.
  - intros ->. destruct (read_mono wf) as [audio | e]; [| reflexivity].
    cbn [Z.eqb negb]. cbv iota.
    destruct (resample_zero_rate audio) as [e ->]. reflexivity.
Qed.

Lemma empty_or_rateless_recordings_witness :
  fst (_load_audio (lab (Ok true)) (PStr "silent.wav") ready) = Ok (AudioArray []) /\
  fst (_load_audio (lab (Ok true)) (PStr "empty.wav") ready) = Ok (AudioPath (PStr "empty.wav")) /\
  fst (_load_audio (lab (Ok true)) (PStr "norate.wav") ready)
    = Ok (AudioPath (PStr "norate.wav")).
Proof.
  split; [| split].
  - apply (proj1 (empty_or_rateless_recordings (lab (Ok true)) (PStr "silent.wav") ready
                    (WaveFile 16000 1 2 0 []) eq_refl)).
    reflexivity.
  - apply (proj1 (empty_or_rateless_recordings (lab (Ok true)) (PStr "empty.wav") ready
                    empty_clip eq_refl)).
    reflexivity.
  - apply (proj2 (empty_or_rateless_recordings (lab (Ok true)) (PStr "norate.wav") ready
                    (WaveFile 0 1 2 2 (pcm16 [1; 2])) eq_refl)).
    reflexivity.
Defined.

(** ** Sample values stay in range *)

Lemma Z_of_byte_bounds (b : byte) : 0 <= Z_of_byte b <= 255.
Proof. unfold Z_of_byte. pose proof (Byte.to_N_bounded b). lia. Qed.

Lemma lor_le_add (a b : Z) : 0 <= a -> 0 <= b -> 0 <= Z.lor a b <= a + b.
Proof.
  intros Ha Hb. pose proof (Z.add_lor_land a b) as Hadd.
  assert (0 <= Z.land a b) by (apply Z.land_nonneg; auto).
  assert (0 <= Z.lor a b) by (apply Z.lor_nonneg; auto).
  lia.
Qed.

Lemma int16_le_bounds (b0 b1 : byte) : -32768 <= int16_le b0 b1 < 32768.
Proof.
  unfold int16_le, to_signed.
  pose proof (Z_of_byte_bounds b0). pose proof (Z_of_byte_bounds b1).
  rewrite Z.shiftl_mul_pow2 by lia.
  pose proof (lor_le_add (Z_of_byte b0) (Z_of_byte b1 * 2 ^ 8) ltac:(lia) ltac:(lia)).
  change (2 ^ 8) with 256 in *. change (2 ^ (16 - 1)) with 32768. change (2 ^ 16) with 65536.
  destruct (Z.ltb_spec (Z.lor (Z_of_byte b0) (Z_of_byte b1 * 256)) 32768); lia.
Qed.

Lemma int32_le_bounds (b0 b1 b2 b3 : byte) :
  -2147483648 <= int32_le b0 b1 b2 b3 < 2147483648.
Proof.
  unfold int32_le, to_signed.
  pose proof (Z_of_byte_bounds b0). pose proof (Z_of_byte_bounds b1).
  pose proof (Z_of_byte_bounds b2). pose proof (Z_of_byte_bounds b3).
  rewrite !Z.shiftl_mul_pow2 by lia.
  change (2 ^ 8) with 256. change (2 ^ 16) with 65536. change (2 ^ 24) with 16777216.
  pose proof (lor_le_add (Z_of_byte b0) (Z_of_byte b1 * 256) ltac:(lia) ltac:(lia)).
  pose proof (lor_le_add (Z_of_byte b2 * 65536) (Z_of_byte b3 * 16777216)
                ltac:(lia) ltac:(lia)).
  pose proof (lor_le_add (Z.lor (Z_of_byte b0) (Z_of_byte b1 * 256))
                (Z.lor (Z_of_byte b2 * 65536) (Z_of_byte b3 * 16777216))
                ltac:(lia) ltac:(lia)).
  change (2 ^ (32 - 1)) with 2147483648. change (2 ^ 32) with 4294967296.
  match goal with |- context [?u <? 2147483648] => destruct (Z.ltb_spec u 2147483648) end;
    lia.
Qed.

Lemma np_frombuffer_int16_bounds (raw : list byte) (samples : list Z) :
  np_frombuffer_int16 raw = Ok samples -> Forall (fun s => -32768 <= s <= 32768) samples.
Proof.
  assert (H : forall raw,
            (forall samples, np_frombuffer_int16 raw = Ok samples ->
                             Forall (fun s => -32768 <= s <= 32768) samples) /\
            (forall b samples, np_frombuffer_int16 (b :: raw) = Ok samples ->
                               Forall (fun s => -32768 <= s <= 32768) samples)).
  { clear. induction raw as [| a raw [IH0 IH1]].
    - split; [intros samples H; injection H as <-; constructor |].
      intros b samples H. discriminate.
    - split; [apply IH1 |]. intros b samples. cbn [np_frombuffer_int16].
      destruct (np_frombuffer_int16 raw) as [rest | e]; [| discriminate].
      intro H. injection H as <-. constructor; [| apply IH0; reflexivity].
      pose proof (int16_le_bounds b a). lia. }
  apply H.
Qed.

Lemma np_frombuffer_int32_bounds (raw : list byte) (samples : list Z) :
  np_frombuffer_int32 raw = Ok samples ->
  Forall (fun s => -2147483648 <= s <= 2147483648) samples.
Proof.
  assert (H : forall raw,
            let P l := forall samples, np_frombuffer_int32 l = Ok samples ->
                         Forall (fun s => -2147483648 <= s <= 2147483648) samples in
            P raw /\ (forall a, P (a :: raw)) /\ (forall a b, P (a :: b :: raw)) /\
            (forall a b c, P (a :: b :: c :: raw))).
  { clear. induction raw as [| x raw [IH0 [IH1 [IH2 IH3]]]]; cbv zeta in *.
    - repeat split; intros; try discriminate.
      match goal with H : _ = Ok _ |- _ => injection H as <- end. constructor.
    - split; [exact (IH1 x) |]. split; [intro a; exact (IH2 a x) |].
      split; [intros a b; exact (IH3 a b x) |].
      intros a b c samples. cbn [np_frombuffer_int32].
      destruct (np_frombuffer_int32 raw) as [rest | e]; [| discriminate].
      intro H. injection H as <-. constructor; [| apply IH0; reflexivity].
      pose proof (int32_le_bounds a b c x). lia. }
  apply H.
Qed.

Lemma normalize_within (d : Z) (samples : list Z) :
  0 < d -> Forall (fun s => - d <= s <= d) samples ->
  Forall (within (-1) 1) (normalize d samples).
Proof.
  intros Hd H. unfold normalize. apply Forall_map. eapply Forall_impl; [| exact H].
  intros s Hs. cbv beta in Hs.
  assert (Hd' : (0 < inject_Z d)%Q) by (change 0%Q with (inject_Z 0); rewrite <- Zlt_Qlt; lia).
  split.
  - apply Qle_shift_div_l; [exact Hd' |].
    setoid_replace (-1 * inject_Z d)%Q with (inject_Z (- d))
      by (rewrite inject_Z_opp; ring).
    rewrite <- Zle_Qle. lia.
  - apply Qle_shift_div_r; [exact Hd' |]. rewrite Qmult_1_l. rewrite <- Zle_Qle. lia.
Qed.

Lemma Qsum_within (lo hi : Q) (row : list Q) :
  Forall (within lo hi) row ->
  (inject_Z (Z.of_nat (List.length row)) * lo <= Qsum row)%Q /\
  (Qsum row <= inject_Z (Z.of_nat (List.length row)) * hi)%Q.
Proof.
  induction 1 as [| v row [Hlo Hhi] _ [IHlo IHhi]].
  - cbn. change (inject_Z 0) with 0%Q. split; lra.
  - cbn [List.length Qsum fold_right]. fold (Qsum row).
    rewrite Nat2Z.inj_succ, <- Z.add_1_r, inject_Z_plus.
    change (inject_Z 1) with 1%Q. split; lra.
Qed.

Lemma mean_within (lo hi : Q) (row : list Q) :
  row <> [] -> Forall (within lo hi) row -> within lo hi (mean row).
Proof.
  intros Hne H. destruct (Qsum_within lo hi row H) as [Hlo Hhi].
  assert (Hn : (0 < inject_Z (Z.of_nat (List.length row)))%Q).
  { change 0%Q with (inject_Z 0). rewrite <- Zlt_Qlt.
    destruct row; [congruence | cbn [List.length]; lia]. }
  unfold mean. split.
  - apply Qle_shift_div_l; [exact Hn |]. rewrite Qmult_comm. exact Hlo.
  - apply Qle_shift_div_r; [exact Hn |]. rewrite Qmult_comm. exact Hhi.
Qed.

Lemma Forall_firstn_keeps {A} (P : A -> Prop) (n : nat) :
  forall l, Forall P l -> Forall P (firstn n l).
Proof.
  induction n as [| n IH]; intros l H; [constructor |].
  destruct H; cbn [firstn]; constructor; auto.
Qed.

Lemma Forall_skipn_keeps {A} (P : A -> Prop) (n : nat) :
  forall l, Forall P l -> Forall P (skipn n l).
Proof.
  induction n as [| n IH]; intros l H; [exact H |].
  destruct H; cbn [skipn]; [constructor | auto].
Qed.

Lemma rows_within (P : Q -> Prop) (c : nat) (fuel : nat) :
  (0 < c)%nat ->
  forall audio, Forall P audio ->
    Forall (fun row => row <> [] /\ Forall P row) (rows c audio fuel).
Proof.
  intro Hc. induction fuel as [| fuel IH]; intros audio H; [constructor |].
  cbn [rows]. destruct audio as [| v audio]; [constructor |].
  constructor.
  - split.
    + destruct c; [lia | discriminate].
    + apply Forall_firstn_keeps. exact H.
  - apply IH. apply Forall_skipn_keeps. exact H.
Qed.

Lemma reshape_mean_within (lo hi : Q) (audio out : list Q) (n_channels : Z) :
  1 < n_channels -> Forall (within lo hi) audio ->
  reshape_mean audio n_channels = Ok out -> Forall (within lo hi) out.
Proof.
  intros Hc H. unfold reshape_mean.
  destruct (Z.of_nat (List.length audio) mod n_channels =? 0); [| discriminate].
  intro Hout. injection Hout as <-. apply Forall_map.
  eapply Forall_impl;
    [| apply (rows_within (within lo hi) (Z.to_nat n_channels) (List.length audio)
                ltac:(lia) audio H)].
  intros row [Hne Hrow]. apply mean_within; assumption.
Qed.

Lemma read_mono_within (wf : wave_file) (audio : list Q) :
  read_mono wf = Ok audio -> Forall (within (-1) 1) audio.
Proof.
  unfold read_mono. cbv zeta.
  assert (Hmix : forall samples : list Q,
            Forall (within (-1) 1) samples ->
            (if 1 <? getnchannels wf then reshape_mean samples (getnchannels wf)
             else Ok samples) = Ok audio ->
            Forall (within (-1) 1) audio).
  { intros samples Hs. destruct (Z.ltb_spec 1 (getnchannels wf)).
    - apply reshape_mean_within; assumption.
    - intro Hsame. injection Hsame as <-. exact Hs. }
  destruct (getsampwidth wf =? 2).
  - destruct (np_frombuffer_int16 (readframes wf)) as [samples |] eqn:Hraw; [| discriminate].
    apply Hmix. apply normalize_within; [lia |].
    apply (np_frombuffer_int16_bounds _ _ Hraw).
  - destruct (getsampwidth wf =? 4); [| discriminate].
    destruct (np_frombuffer_int32 (readframes wf)) as [samples |] eqn:Hraw; [| discriminate].
    apply Hmix. apply normalize_within; [lia |].
    apply (np_frombuffer_int32_bounds _ _ Hraw).
Qed.

(** Between two sample points the interpolated value lies between the
    two samples. *)
Lemma segment_within (lo hi x0 x1 f0 f1 x : Q) :
  within lo hi f0 -> within lo hi f1 -> (x0 <= x)%Q -> (x < x1)%Q ->
  within lo hi ((f1 - f0) / (x1 - x0) * (x - x0) + f0)%Q.
Proof.
  intros [Hl0 Hh0] [Hl1 Hh1] Hlo Hhi.
  assert (Hd : (0 < x1 - x0)%Q) by lra.
  set (t := ((x - x0) / (x1 - x0))%Q).
  assert (Ht0 : (0 <= t)%Q).
  { unfold t. apply Qle_shift_div_l; [exact Hd | lra]. }
  assert (Ht1 : (t <= 1)%Q).
  { unfold t. apply Qle_shift_div_r; [exact Hd | lra]. }
  assert (Heq : ((f1 - f0) / (x1 - x0) * (x - x0) + f0 == f0 + (f1 - f0) * t)%Q).
  { unfold t. field. lra. }
  unfold within. rewrite Heq.
  pose proof (Qmult_le_0_compat _ _ Ht0 (proj1 (Qle_minus_iff lo f1) Hl1)) as A.
  pose proof (Qmult_le_0_compat _ _ (proj1 (Qle_minus_iff t 1) Ht1)
                (proj1 (Qle_minus_iff lo f0) Hl0)) as B.
  pose proof (Qmult_le_0_compat _ _ Ht0 (proj1 (Qle_minus_iff f1 hi) Hh1)) as C.
  pose proof (Qmult_le_0_compat _ _ (proj1 (Qle_minus_iff t 1) Ht1)
                (proj1 (Qle_minus_iff f0 hi) Hh0)) as D.
  split; lra.
Qed.

Lemma interp_from_within (lo hi : Q) (x : Q) (fp : list Q) :
  Forall (within lo hi) fp -> fp <> [] ->
  forall xp, xp <> [] -> (hd 0 xp <= x)%Q -> within lo hi (interp_from x xp fp).
Proof.
  induction 1 as [| f0 fp Hf0 Hfp IH]; intros Hne xp Hxp Hhead; [congruence |].
  destruct xp as [| x0 xp]; [congruence |].
  cbn [interp_from]. destruct xp as [| x1 xp]; [exact Hf0 |].
  destruct fp as [| f1 fp]; [exact Hf0 |].
  destruct (Qle_bool x1 x) eqn:Hnext.
  - apply IH; [discriminate | discriminate |].
    apply Qle_bool_iff in Hnext. exact Hnext.
  - destruct (Qeq_bool x0 x); [exact Hf0 |].
    apply segment_within; [exact Hf0 | exact (Forall_inv Hfp) | exact Hhead |].
    apply Qnot_le_lt. intro H. apply Qle_bool_iff in H. congruence.
Qed.

Lemma interp1_within (lo hi : Q) (xp fp : list Q) (x : Q) :
  Forall (within lo hi) fp -> fp <> [] -> xp <> [] -> within lo hi (interp1 xp fp x).
Proof.
  intros Hfp Hne Hxp. unfold interp1.
  destruct xp as [| x0 xp]; [congruence |]. destruct fp as [| f0 fp]; [congruence |].
  destruct (Qle_bool x0 x) eqn:H0; [| exact (Forall_inv Hfp)].
  apply interp_from_within; [exact Hfp | discriminate | discriminate |].
  apply Qle_bool_iff in H0. exact H0.
Qed.

Lemma resample_within (lo hi : Q) (audio out : list Q) (sample_rate : Z) :
  Forall (within lo hi) audio -> resample audio sample_rate = Ok out ->
  Forall (within lo hi) out.
Proof.
  intro H. unfold resample. cbv zeta.
  destruct (new_length _ sample_rate) as [n |]; [| discriminate].
  destruct (np_linspace _ _ n) as [indices |]; [| discriminate].
  unfold np_interp. destruct audio as [| f0 audio]; [discriminate |].
  change (np_arange (List.length (f0 :: audio)))
    with (knot 0 :: map knot (seq 1 (List.length audio))).
  destruct (Nat.eqb _ _); [| discriminate].
  intro Hout. injection Hout as <-. apply Forall_map. apply Forall_forall.
  intros x _. apply interp1_within; [exact H | discriminate | discriminate].
Qed.

(** X13. Resampling never overshoots: every value of the resampled buffer
    lies between the smallest and the largest sample of the buffer it was
    computed from. *)
Theorem resampling_stays_within_the_source (lo hi : Q) (audio out : list Q)
    (sample_rate : Z) :
  Forall (within lo hi) audio -> resample audio sample_rate = Ok out ->
  Forall (within lo hi) out.
Proof.
  intros Haudio Hout.
  assert (Hne : audio <> []).
  { intros ->. destruct (resample_empty sample_rate) as [e He]. congruence. }
  revert Hout. unfold resample. cbv zeta.
  destruct (new_length _ sample_rate) as [n |]; [| discriminate].
  destruct (np_linspace _ _ n) as [indices |]; [| discriminate].
  rewrite np_interp_arange by exact Hne.
  intro Hout. injection Hout as <-. apply Forall_map. apply Forall_forall.
  intros x _. apply interp1_within; [exact Haudio | exact Hne |].
  destruct audio; [congruence | discriminate].
Qed.

Lemma resampling_stays_within_the_source_witness :
  exists out : list Q,
    resample [1 # 2; 3 # 4; 1 # 4]%Q 8000 = Ok out /\
    List.length out = 6%nat /\
    Forall (within (1 # 4) (3 # 4)) out.
Proof.
  eexists. split; [vm_compute; reflexivity |]. split; [reflexivity |].
  apply (resampling_stays_within_the_source (1 # 4) (3 # 4) [1 # 2; 3 # 4; 1 # 4]%Q _ 8000).
  - repeat constructor; discriminate.
  - vm_compute. reflexivity.
Defined.

(** X14. Whatever the container, every sample of an array the Audio
    Loader returns lies between -1 and 1: 16-bit and 32-bit samples are
    scaled by their full range, and neither the averaging of channels nor
    the resampling leaves the range. *)
Theorem loaded_samples_are_normalized (w : World) (path : pyval) (p : proc)
    (samples : list Q) :
  fst (_load_audio w path p) = Ok (AudioArray samples) ->
  Forall (within (-1) 1) samples.
Proof.
  rewrite _load_audio_run. cbn [fst]. unfold loaded_audio.
  destruct (wave_open w path) as [wf |]; [| discriminate].
  destruct (decode_wave wf) as [audio |] eqn:Hdecode; [| discriminate].
  intro H. injection H as <-.
  unfold decode_wave in Hdecode. cbv zeta in Hdecode.
  destruct (read_mono wf) as [mono |] eqn:Hmono; [| discriminate].
  pose proof (read_mono_within wf mono Hmono) as Hrange.
  destruct (negb (getframerate wf =? 16000)).
  - exact (resample_within (-1) 1 mono audio (getframerate wf) Hrange Hdecode).
  - injection Hdecode as <-. exact Hrange.
Qed.

Lemma loaded_samples_are_normalized_witness :
  exists samples : list Q,
    fst (_load_audio (lab (Ok true)) (PStr "wide.wav") ready) = Ok (AudioArray samples) /\
    List.length samples = 2%nat /\ Forall (within (-1) 1) samples.
Proof.
  eexists. split; [vm_compute; reflexivity |]. split; [reflexivity |].
  apply (loaded_samples_are_normalized (lab (Ok true)) (PStr "wide.wav") ready).
  vm_compute. reflexivity.
Defined.

(** ** From Uninitialized to Ready *)

Lemma handle_line_same_self (w : World) (line : string) (p : proc) :
  is_load w line = false -> self (snd (handle_line w line p)) = self p.
Proof.
  intro Hload. unfold is_load in Hload.
  destruct (request_of w line) as [request |] eqn:Hreq.
  - rewrite (handle_line_request _ _ _ _ Hreq).
    apply dispatch_same_self. intros items ->. exact Hload.
  - apply handle_line_no_request, Hreq.
Qed.

(** X15. A load that answers success leaves the server Ready: it holds a
    model, and a ping that follows reports the identifier that was just
    loaded. *)
Theorem ping_reports_the_loaded_model (w : World) (size device compute_type : pyval)
    (p : proc) (d c : pyval) :
  fst (load_model w size device compute_type p) = Ok (loaded_payload size d c) ->
  let q := snd (load_model w size device compute_type p) in
  model (self q) <> None /\
  forall ping items,
    request_of w ping = Some (PDict items) ->
    py_eq_str (dict_get items "command" (PStr "")) "ping" = true ->
    handle_line w ping q =
      (Ok Continue,
       {| self := self q;
          trace := trace q ++ [Stdout (PDict [("success", PBool true); ("pong", PBool true);
                                              ("model", size)])] |}).
Proof.
  intros Hok q. subst q.
  destruct (load_model_outcome w size device compute_type p)
    as [payload [q [Hrun [[d' [_ Hself]] | [msg [Hfail _]]]]]];
    rewrite Hrun in *; cbn [fst snd] in *.
  - split; [rewrite Hself; discriminate |].
    intros ping items Hreq Hping.
    rewrite (handle_line_request _ _ _ _ Hreq), dispatch_object. cbv zeta. rewrite Hping.
    unfold bind, get_self, print, log, ret. cbn [fst snd]. rewrite Hself. reflexivity.
  - rewrite Hfail in Hok. discriminate.
Qed.

Lemma ping_reports_the_loaded_model_witness :
  handle_line studio ping_line
    (snd (load_model studio (PStr "base") (PStr "cpu") (PStr "auto") boot)) =
  (Ok Continue,
   {| self := self (snd (load_model studio (PStr "base") (PStr "cpu") (PStr "auto") boot));
      trace := trace (snd (load_model studio (PStr "base") (PStr "cpu") (PStr "auto") boot))
               ++ [Stdout (PDict [("success", PBool true); ("pong", PBool true);
                                  ("model", PStr "base")])] |}).
Proof.
  destruct (ping_reports_the_loaded_model studio (PStr "base") (PStr "cpu") (PStr "auto")
              boot (PStr "cpu") (PStr "int8") eq_refl) as [_ Hping].
  apply (Hping ping_line [("command", PStr "ping")]); reflexivity.
Defined.

(** X16. The fields a request leaves out take their defaults: a load
    request with no [model_size], [device] or [compute_type] loads "base"
    with both settings on "auto", and a transcribe request with no
    [audio_path] or [language] asks for the path [""] with the language
    left to the engine. *)
Theorem missing_fields_take_defaults (w : World) (line : string)
    (items : list (string * pyval)) (p : proc) :
  request_of w line = Some (PDict items) ->
  (py_eq_str (dict_get items "command" (PStr "")) "load" = true ->
   assoc_get "model_size" items = None -> assoc_get "device" items = None ->
   assoc_get "compute_type" items = None ->
   handle_line w line p =
     bind (load_model w (PStr "base") (PStr "auto") (PStr "auto"))
          (fun result => bind (print result) (fun _ => ret Continue)) p) /\
  (py_eq_str (dict_get items "command" (PStr "")) "transcribe" = true ->
   assoc_get "audio_path" items = None -> assoc_get "language" items = None ->
   handle_line w line p =
     bind (transcribe w (PStr "") PNone)
          (fun result => bind (print result) (fun _ => ret Continue)) p).
Proof.
  intro Hreq. rewrite (handle_line_request _ _ _ _ Hreq), dispatch_object. cbv zeta. split.
  - intros Hcmd Hsize Hdev Hct. apply py_eq_str_true in Hcmd. rewrite Hcmd.
    unfold dict_get. rewrite Hsize, Hdev, Hct. reflexivity.
  - intros Hcmd Hpath Hlang. apply py_eq_str_true in Hcmd. rewrite Hcmd.
    unfold dict_get. rewrite Hpath, Hlang. reflexivity.
Qed.

Lemma missing_fields_take_defaults_witness :
  handle_line studio load_line boot =
    bind (load_model studio (PStr "base") (PStr "auto") (PStr "auto"))
         (fun result => bind (print result) (fun _ => ret Continue)) boot.
Proof.
  destruct (missing_fields_take_defaults studio load_line [("command", PStr "load")] boot
              eq_refl) as [Hload _].
  apply Hload; reflexivity.
Defined.

Lemma serve_without_load (w : World) (stdin : list string) :
  Forall (fun line => is_load w line = false) stdin ->
  forall p, self (snd (serve w stdin p)) = self p.
Proof.
  induction 1 as [| line rest Hline _ IH]; intro p; [reflexivity |].
  rewrite serve_cons.
  pose proof (handle_line_same_self w line
                {| self := self p; trace := trace p ++ [Stdin line] |} Hline) as Hq.
  destruct (handle_line w line _) as [[[|] | e] q]; cbn [snd self] in *;
    [rewrite IH |..]; exact Hq.
Qed.

(** X17. Only a load request takes the server out of its initial state:
    on an input with no load request the run ends, however it ends, with
    no model held and no identifier. *)
Theorem no_load_no_model (w : World) (stdin : list string) :
  Forall (fun line => is_load w line = false) stdin ->
  self (snd (main w stdin)) = __init__.
Proof.
  intro H. unfold main, run. erewrite bind_ok by apply print_appends.
  rewrite (serve_without_load w stdin H). reflexivity.
Qed.

Lemma no_load_no_model_witness :
  self (snd (main studio [ping_line; ("not json" ++ nl)%string; quit_line])) = __init__.
Proof.
  apply (no_load_no_model studio [ping_line; ("not json" ++ nl)%string; quit_line]).
  repeat constructor.
Defined.
